(** * mutolaa-bot: the reading-log API and the Telegram front-end

    A shallow embedding of [api.py] (the FastAPI service over the SQLite
    store) and of the parts of [bot.py] that call it (the /add and /edit
    commands and the announcement job), with the properties of the
    specification stated over it.

    Layout:  the Python runtime (exceptions, [datetime]), the store and its
    rows, the API endpoints, the bot, then the lemmas and theorems. *)

From Stdlib Require Import ZArith List Bool String Ascii Lia QArith.
From Stdlib Require Import Permutation Sorted FinFun.
Import ListNotations.

Local Open Scope string_scope.
Local Open Scope list_scope.
Local Open Scope Z_scope.

(* ================================================================== *)
(** ** Exceptions and fallible computations *)

(** The exceptions the modelled code can raise.  [HTTPException] carries
    FastAPI's status code and detail. *)
Inductive exn : Type :=
| HTTPException (status_code : Z) (detail : string)
| ValueError
| OverflowError
| ZeroDivisionError.

Inductive result (A : Type) : Type :=
| Ok (a : A)
| Raise (e : exn).
Arguments Ok {A} a.
Arguments Raise {A} e.

Definition bind {A B} (m : result A) (k : A -> result B) : result B :=
  match m with
  | Ok a => k a
  | Raise e => Raise e
  end.

Notation "x <- m ;; k" := (bind m (fun x => k))
  (at level 61, m at next level, right associativity).
Notation "' pat <- m ;; k" := (bind m (fun x => match x with pat => k end))
  (at level 61, pat pattern, m at next level, right associativity).

(* ================================================================== *)
(** ** Python's [datetime]

    Dates are proleptic Gregorian, years [MINYEAR]..[MAXYEAR]; arithmetic
    with a [timedelta] goes through the ordinal and raises [OverflowError]
    when the result leaves that range.  The conversions are those of
    CPython's [_pydatetime]. *)
Module PyDatetime.

Definition MINYEAR : Z := 1.
Definition MAXYEAR : Z := 9999.
Definition _MAXORDINAL : Z := 3652059.

Definition _DAYS_IN_MONTH : list Z :=
  [-1; 31; 28; 31; 30; 31; 30; 31; 31; 30; 31; 30; 31].
Definition _DAYS_BEFORE_MONTH : list Z :=
  [-1; 0; 31; 59; 90; 120; 151; 181; 212; 243; 273; 304; 334].

(** [xs[i]] for a table and an index known to be in range. *)
Definition tbl (xs : list Z) (i : Z) : Z := nth (Z.to_nat i) xs 0.

Definition _is_leap (year : Z) : bool :=
  (year mod 4 =? 0) && (negb (year mod 100 =? 0) || (year mod 400 =? 0)).

Definition _days_before_year (year : Z) : Z :=
  let y := year - 1 in
  y * 365 + y / 4 - y / 100 + y / 400.

Definition _days_in_month (year month : Z) : Z :=
  if (month =? 2) && _is_leap year then 29 else tbl _DAYS_IN_MONTH month.

Definition _days_before_month (year month : Z) : Z :=
  tbl _DAYS_BEFORE_MONTH month
  + (if (2 <? month) && _is_leap year then 1 else 0).

Definition _ymd2ord (year month day : Z) : Z :=
  _days_before_year year + _days_before_month year month + day.

Definition _DI400Y : Z := 146097.
Definition _DI100Y : Z := 36524.
Definition _DI4Y : Z := 1461.

Record date : Type := mkdate { year : Z; month : Z; day : Z }.

(** The tail of [_ord2ymd]: month and day from the 0-based day of the year. *)
Definition _yday2md (year : Z) (leapyear : bool) (n : Z) : date :=
  let month := Z.shiftr (n + 50) 5 in
  let preceding :=
    tbl _DAYS_BEFORE_MONTH month
    + (if (2 <? month) && leapyear then 1 else 0) in
  if n <? preceding then
    let month := month - 1 in
    let preceding :=
      preceding
      - (tbl _DAYS_IN_MONTH month
         + (if (month =? 2) && leapyear then 1 else 0)) in
    mkdate year month (n - preceding + 1)
  else mkdate year month (n - preceding + 1).

Definition _ord2ymd (n : Z) : date :=
  let n := n - 1 in
  let n400 := n / _DI400Y in
  let n := n mod _DI400Y in
  let year := n400 * 400 + 1 in
  let n100 := n / _DI100Y in
  let n := n mod _DI100Y in
  let n4 := n / _DI4Y in
  let n := n mod _DI4Y in
  let n1 := n / 365 in
  let n := n mod 365 in
  let year := year + (n100 * 100 + n4 * 4 + n1) in
  if (n1 =? 4) || (n100 =? 4) then mkdate (year - 1) 12 31
  else
    let leapyear := (n1 =? 3) && (negb (n4 =? 24) || (n100 =? 3)) in
    _yday2md year leapyear n.

(** The values the [date] constructor accepts. *)
Definition valid_date (d : date) : bool :=
  (MINYEAR <=? year d) && (year d <=? MAXYEAR)
  && (1 <=? month d) && (month d <=? 12)
  && (1 <=? day d) && (day d <=? _days_in_month (year d) (month d)).

Definition date_eqb (a b : date) : bool :=
  (year a =? year b) && (month a =? month b) && (day a =? day b).

Definition toordinal (d : date) : Z := _ymd2ord (year d) (month d) (day d).

(** [date.weekday()]: Monday is 0, Sunday is 6. *)
Definition weekday (d : date) : Z := (toordinal d + 6) mod 7.

(** [d + timedelta(days=k)] on a [date]. *)
Definition date_add_days (d : date) (k : Z) : result date :=
  let o := toordinal d + k in
  if (0 <? o) && (o <=? _MAXORDINAL) then Ok (_ord2ymd o)
  else Raise OverflowError.

(** [a <= b] on dates: Python compares (year, month, day), and SQLite the
    ISO strings, which is the same order. *)
Definition date_leb (a b : date) : bool :=
  (year a <? year b)
  || ((year a =? year b)
      && ((month a <? month b)
          || ((month a =? month b) && (day a <=? day b)))).

(** A naive [datetime]: a date and the time of day in microseconds. *)
Record datetime : Type := mkdatetime { dt_date : date; dt_time : Z }.

Definition valid_datetime (t : datetime) : bool :=
  valid_date (dt_date t) && (0 <=? dt_time t) && (dt_time t <? 86400000000).

(** [t + timedelta(days=k)] on a [datetime]: the time of day is kept. *)
Definition datetime_add_days (t : datetime) (k : Z) : result datetime :=
  d <- date_add_days (dt_date t) k ;;
  Ok (mkdatetime d (dt_time t)).

(** [t.replace(day=1)]: day 1 exists in every month. *)
Definition replace_day1 (t : datetime) : datetime :=
  mkdatetime (mkdate (year (dt_date t)) (month (dt_date t)) 1) (dt_time t).

Definition datetime_leb (a b : datetime) : bool :=
  if date_eqb (dt_date a) (dt_date b) then dt_time a <=? dt_time b
  else date_leb (dt_date a) (dt_date b).

End PyDatetime.
Import PyDatetime.

(** *** Auxiliary notions of the calendar *)

(** A well-formed calendar date, without the bound on the year. *)
Definition wf_date (d : date) : Prop :=
  1 <= year d /\ 1 <= month d <= 12
  /\ 1 <= day d <= _days_in_month (year d) (month d).

(** Month and day from the day of the year, checked on every day of a
    common and of a leap year. *)
Definition yday_ok (leap : bool) (n : Z) : bool :=
  let d := _yday2md 1 leap n in
  (1 <=? month d) && (month d <=? 12) && (1 <=? day d)
  && (day d <=? (if (month d =? 2) && leap then 29
                 else tbl _DAYS_IN_MONTH (month d)))
  && (tbl _DAYS_BEFORE_MONTH (month d)
      + (if (2 <? month d) && leap then 1 else 0) + day d =? n + 1).

(** The month after [(y, m)]. *)
Definition next_month_of (y m : Z) : Z * Z :=
  if m =? 12 then (y + 1, 1) else (y, m + 1).

(* ================================================================== *)
(** ** The store: rows of the three tables *)

Module User.
Record t : Type := mk {
  id : Z;
  telegram_id : Z;
  username : option string;
  first_name : string;
  last_name : option string;
  status : string;
  daily_goal : Z;
  monthly_goal : Z;
  reminder_time : string;
  timezone : string;
  current_streak : Z;
  longest_streak : Z;
  total_pages : Z;
  books_completed : Z;
  join_date : datetime;
  last_active : datetime
}.

Definition set_total_pages (v : Z) (u : t) : t :=
  mk (id u) (telegram_id u) (username u) (first_name u) (last_name u)
     (status u) (daily_goal u) (monthly_goal u) (reminder_time u)
     (timezone u) (current_streak u) (longest_streak u) v
     (books_completed u) (join_date u) (last_active u).

Definition set_last_active (v : datetime) (u : t) : t :=
  mk (id u) (telegram_id u) (username u) (first_name u) (last_name u)
     (status u) (daily_goal u) (monthly_goal u) (reminder_time u)
     (timezone u) (current_streak u) (longest_streak u) (total_pages u)
     (books_completed u) (join_date u) v.
End User.

Module ReadingLog.
Record t : Type := mk {
  id : Z;
  user_id : Z;
  date : datetime;
  pages : Z
}.

Definition set_pages (v : Z) (l : t) : t := mk (id l) (user_id l) (date l) v.
End ReadingLog.

Module Announcement.
Record t : Type := mk {
  id : Z;
  message : string;
  message_type : string;
  target_audience : string;
  pin_message : Z;
  notify_all : Z;
  created_at : datetime;
  sent_at : option datetime
}.

Definition set_sent_at (v : option datetime) (a : t) : t :=
  mk (id a) (message a) (message_type a) (target_audience a)
     (pin_message a) (notify_all a) (created_at a) v.
End Announcement.

(** The database: each table is the list of its rows in storage order. *)
Record DB : Type := mkDB {
  users : list User.t;
  reading_logs : list ReadingLog.t;
  announcements : list Announcement.t
}.

Definition empty_db : DB := mkDB [] [] [].

(** The two clocks the service reads: [datetime.now()] and
    [datetime.now(timezone.utc)]. *)
Record Clock : Type := mkClock { now : datetime; utcnow : datetime }.

(** *** Query helpers *)

Definition sum_Z (xs : list Z) : Z := fold_right Z.add 0 xs.

(** The rowid SQLite gives to an inserted row: one more than the largest. *)
Definition next_id (ids : list Z) : Z := 1 + fold_right Z.max 0 ids.

(** [LIMIT n]: a negative [n] means no limit in SQLite. *)
Definition sql_limit {A} (n : Z) (rows : list A) : list A :=
  if n <? 0 then rows else firstn (Z.to_nat n) rows.

(** [ORDER BY]: [before x y] says that [x] may come before [y].  Rows that
    compare equal keep their storage order. *)
Fixpoint insert_by {A} (before : A -> A -> bool) (x : A) (l : list A)
  : list A :=
  match l with
  | [] => [x]
  | y :: t => if before x y then x :: l else y :: insert_by before x t
  end.

Definition order_by {A} (before : A -> A -> bool) (rows : list A) : list A :=
  fold_right (insert_by before) [] rows.

Definition order_by_desc {A} (key : A -> Z) : list A -> list A :=
  order_by (fun x y => key y <=? key x).

(** [enumerate(rows, start=1)]. *)
Fixpoint enumerate_from {A} (start : Z) (rows : list A) : list (Z * A) :=
  match rows with
  | [] => []
  | r :: t => (start, r) :: enumerate_from (start + 1) t
  end.

(** A transaction that raised is not committed. *)
Definition commit {A} (db : DB) (r : result (DB * A)) : DB :=
  match r with
  | Ok (db', _) => db'
  | Raise _ => db
  end.

(** *** Request and response bodies *)

Module UserCreate.
Record t : Type := mk {
  telegram_id : Z;
  username : option string;
  first_name : string;
  last_name : option string
}.
End UserCreate.

Module ReadingLogCreate.
Record t : Type := mk { date : datetime; pages : Z }.
End ReadingLogCreate.

Module UserOut.
Record t : Type := mk {
  id : Z;
  telegram_id : Z;
  username : option string;
  first_name : string;
  status : string;
  total_pages : Z
}.
End UserOut.

Module AnnouncementOut.
Record t : Type := mk {
  id : Z;
  message : string;
  created_at : datetime;
  sent_at : option datetime
}.
End AnnouncementOut.

Module LeaderboardEntry.
Record t : Type := mk { rank : Z; name : string; pages : Z; books : Z }.
End LeaderboardEntry.

Module WeeklyEntry.
Record t : Type := mk { rank : Z; name : string; pages : Z; winner : bool }.
End WeeklyEntry.

Module Stats.
Record t : Type := mk {
  total_users : Z;
  weekly_growth : Q;
  active_today : Z;
  total_pages : Z;
  avg_pages_per_day : Q;
  books_completed : Z
}.
End Stats.


(* ================================================================== *)
(** ** api.py: helpers *)

Definition get_month_range (dt : datetime) : result (date * date) :=
  let start := replace_day1 dt in
  t <- datetime_add_days start 32 ;;
  let next_month := replace_day1 t in
  end_ <- datetime_add_days next_month (-1) ;;
  Ok (dt_date start, dt_date end_).

Definition get_week_saturday_to_friday (today : datetime)
  : result (date * date) :=
  let delta_to_saturday := (weekday (dt_date today) - 5) mod 7 in
  t <- datetime_add_days today (- delta_to_saturday) ;;
  let start := dt_date t in
  end_ <- date_add_days start 6 ;;
  Ok (start, end_).

(** Truthiness of a [str]. *)
Definition nonempty (s : string) : bool :=
  match s with EmptyString => false | String _ _ => true end.

Section Service.

(** [datetime.strptime(text, fmt)]; [None] stands for [ValueError]. *)
Variable strptime : string -> string -> option datetime.

(** [column.contains(search)] as SQLite evaluates it; the column may be
    NULL. *)
Variable sql_contains : option string -> string -> bool.

(* ------------------------------------------------------------------ *)
(** *** Users *)

(** [db.query(User).filter(User.telegram_id == telegram_id).first()] *)
Definition user_by_telegram (telegram_id : Z) (db : DB) : option User.t :=
  find (fun u => User.telegram_id u =? telegram_id) (users db).

(** [UPDATE users SET ... WHERE id = ?] *)
Definition update_user (id : Z) (f : User.t -> User.t) (us : list User.t)
  : list User.t :=
  map (fun u => if User.id u =? id then f u else u) us.

Definition create_user (user : UserCreate.t) (clk : Clock) (db : DB)
  : result (DB * User.t) :=
  match user_by_telegram (UserCreate.telegram_id user) db with
  | Some existing => Ok (db, existing)
  | None =>
      let new_user :=
        User.mk (next_id (map User.id (users db)))
                (UserCreate.telegram_id user)
                (UserCreate.username user)
                (UserCreate.first_name user)
                (UserCreate.last_name user)
                "active" 50 1500 "20:00" "GMT+5" 0 0 0 0
                (utcnow clk) (utcnow clk) in
      Ok (mkDB (users db ++ [new_user]) (reading_logs db) (announcements db),
          new_user)
  end.

Definition get_user_by_telegram (telegram_id : Z) (db : DB)
  : result User.t :=
  match user_by_telegram telegram_id db with
  | None => Raise (HTTPException 404 "User not found")
  | Some user => Ok user
  end.

Definition user_out (u : User.t) : UserOut.t :=
  UserOut.mk (User.id u) (User.telegram_id u) (User.username u)
             (User.first_name u) (User.status u) (User.total_pages u).

Definition list_users (search status : string) (limit : Z) (db : DB)
  : list UserOut.t :=
  let q := users db in
  let q :=
    if nonempty search then
      filter (fun u => sql_contains (Some (User.first_name u)) search
                       || sql_contains (User.username u) search) q
    else q in
  let q :=
    if nonempty status then filter (fun u => String.eqb (User.status u) status) q
    else q in
  map user_out (sql_limit limit (order_by_desc User.id q)).

(* ------------------------------------------------------------------ *)
(** *** Reading logs *)

(** [db.query(ReadingLog).filter(ReadingLog.user_id == user.id,
    func.date(ReadingLog.date) == log_date).first()] *)
Definition log_by_date (user_id : Z) (log_date : date) (db : DB)
  : option ReadingLog.t :=
  find (fun l => (ReadingLog.user_id l =? user_id)
                 && date_eqb (dt_date (ReadingLog.date l)) log_date)
       (reading_logs db).

Definition create_reading_log (log : ReadingLogCreate.t) (telegram_id : Z)
    (clk : Clock) (db : DB) : result (DB * (Z * Z)) :=
  match user_by_telegram telegram_id db with
  | None => Raise (HTTPException 404 "User not found")
  | Some user =>
      let new_log :=
        ReadingLog.mk (next_id (map ReadingLog.id (reading_logs db)))
                      (User.id user) (ReadingLogCreate.date log)
                      (ReadingLogCreate.pages log) in
      let total := User.total_pages user + ReadingLogCreate.pages log in
      let us :=
        update_user (User.id user)
          (fun u => User.set_last_active (utcnow clk)
                      (User.set_total_pages total u))
          (users db) in
      Ok (mkDB us (reading_logs db ++ [new_log]) (announcements db),
          (ReadingLogCreate.pages log, total))
  end.

Definition update_reading_log (date : string) (pages : Z) (telegram_id : Z)
    (db : DB) : result (DB * Z) :=
  match user_by_telegram telegram_id db with
  | None => Raise (HTTPException 404 "User not found")
  | Some user =>
      match strptime date "%Y-%m-%d" with
      | None => Raise ValueError
      | Some parsed =>
          let log_date := dt_date parsed in
          match log_by_date (User.id user) log_date db with
          | None => Raise (HTTPException 404 "Log not found")
          | Some log =>
              let total :=
                User.total_pages user - ReadingLog.pages log + pages in
              let us :=
                update_user (User.id user) (User.set_total_pages total)
                            (users db) in
              let ls :=
                map (fun l => if ReadingLog.id l =? ReadingLog.id log
                              then ReadingLog.set_pages pages l else l)
                    (reading_logs db) in
              Ok (mkDB us ls (announcements db), pages)
          end
      end
  end.

Definition delete_reading_log (date : string) (telegram_id : Z) (db : DB)
  : result (DB * unit) :=
  match user_by_telegram telegram_id db with
  | None => Raise (HTTPException 404 "User not found")
  | Some user =>
      match strptime date "%Y-%m-%d" with
      | None => Raise ValueError
      | Some parsed =>
          let log_date := dt_date parsed in
          match log_by_date (User.id user) log_date db with
          | None => Raise (HTTPException 404 "Log not found")
          | Some log =>
              let total := User.total_pages user - ReadingLog.pages log in
              let us :=
                update_user (User.id user) (User.set_total_pages total)
                            (users db) in
              let ls :=
                filter (fun l => negb (ReadingLog.id l =? ReadingLog.id log))
                       (reading_logs db) in
              Ok (mkDB us ls (announcements db), tt)
          end
      end
  end.

(* ------------------------------------------------------------------ *)
(** *** Leaderboard and reports *)

(** The rows of [User JOIN ReadingLog ON User.id == ReadingLog.user_id]. *)
Definition join_logs (db : DB) : list (User.t * ReadingLog.t) :=
  flat_map
    (fun u =>
       map (pair u)
           (filter (fun l => ReadingLog.user_id l =? User.id u)
                   (reading_logs db)))
    (users db).

(** [func.date(ReadingLog.date) >= start_date] and [<= end_date]; no
    filter when the window is [None]. *)
Definition in_window (w : option (date * date)) (l : ReadingLog.t) : bool :=
  match w with
  | None => true
  | Some (start_date, end_date) =>
      date_leb start_date (dt_date (ReadingLog.date l))
      && date_leb (dt_date (ReadingLog.date l)) end_date
  end.

(** [GROUP BY User.id]: one group for each id among the rows. *)
Definition group_by_user (rows : list (User.t * ReadingLog.t))
  : list (list (User.t * ReadingLog.t)) :=
  map (fun k => filter (fun r => User.id (fst r) =? k) rows)
      (nodup Z.eq_dec (map (fun r => User.id (fst r)) rows)).

(** The selected columns of a group:
    [User.first_name], [func.sum(ReadingLog.pages)], [User.books_completed]. *)
Definition aggregate (g : list (User.t * ReadingLog.t))
  : list (string * Z * Z) :=
  match g with
  | [] => []
  | (u, _) :: _ =>
      [(User.first_name u,
        sum_Z (map (fun r => ReadingLog.pages (snd r)) g),
        User.books_completed u)]
  end.

(** The grouped query of the leaderboard and of the reports, ordered by
    [func.sum(ReadingLog.pages).desc()]. *)
Definition ranked_rows (w : option (date * date)) (db : DB)
  : list (string * Z * Z) :=
  order_by_desc (fun r => snd (fst r))
    (flat_map aggregate
       (group_by_user (filter (fun r => in_window w (snd r)) (join_logs db)))).


Definition weekly_report (clk : Clock) (db : DB)
  : result (list WeeklyEntry.t) :=
  let today := now clk in
  w <- get_week_saturday_to_friday today ;;
  let results := ranked_rows (Some w) db in
  Ok (map (fun '(idx, (name, pages, _)) =>
             WeeklyEntry.mk idx name pages (500 <=? pages))
          (enumerate_from 1 results)).

(* ------------------------------------------------------------------ *)
(** *** Stats *)



(* ------------------------------------------------------------------ *)
(** *** Announcements *)

Definition create_announcement
    (message message_type target_audience : option string)
    (pin_message notify_all : bool) (clk : Clock) (db : DB)
  : result (DB * Z) :=
  let get (v : option string) (default : string) :=
    match v with Some s => s | None => default end in
  let ann :=
    Announcement.mk (next_id (map Announcement.id (announcements db)))
                    (get message "") (get message_type "general")
                    (get target_audience "all")
                    (if pin_message then 1 else 0)
                    (if notify_all then 1 else 0)
                    (utcnow clk) None in
  Ok (mkDB (users db) (reading_logs db) (announcements db ++ [ann]),
      Announcement.id ann).

Definition announcement_out (a : Announcement.t) : AnnouncementOut.t :=
  AnnouncementOut.mk (Announcement.id a) (Announcement.message a)
                     (Announcement.created_at a) (Announcement.sent_at a).

Definition list_announcements (db : DB) : list AnnouncementOut.t :=
  let anns :=
    sql_limit 20
      (order_by (fun a b => datetime_leb (Announcement.created_at b)
                                         (Announcement.created_at a))
                (announcements db)) in
  map announcement_out anns.

Definition mark_announcement_sent (announcement_id : Z) (clk : Clock)
    (db : DB) : result (DB * Z) :=
  match find (fun a => Announcement.id a =? announcement_id)
             (announcements db) with
  | None => Raise (HTTPException 404 "Announcement not found")
  | Some ann =>
      let anns :=
        map (fun a => if Announcement.id a =? Announcement.id ann
                      then Announcement.set_sent_at (Some (utcnow clk)) a
                      else a)
            (announcements db) in
      Ok (mkDB (users db) (reading_logs db) anns, Announcement.id ann)
  end.

(* ================================================================== *)
(** ** bot.py *)

(** [int(text)]; [None] stands for [ValueError]. *)
Variable py_int : string -> option Z.

(** [t.strftime(fmt)]. *)
Variable strftime : datetime -> string -> string.

(** The replies of the two commands, by the message they carry. *)
Inductive reply : Type :=
| AddUsage            (* Format noto'g'ri! /add 50 yoki /add 05.01.2026 50 *)
| BadFormat           (* Format noto'g'ri! *)
| PagesNotAnInteger   (* Sahifalar soni faqat butun son bo'lishi kerak! *)
| PagesOutOfRange     (* Sahifalar soni 1-500 oralig'ida bo'lishi kerak! *)
| FutureDate          (* Kelajak sanasi uchun natija qo'shib bo'lmaydi! *)
| UserNotFound        (* Foydalanuvchi ma'lumotlari topilmadi! ... *)
| Congratulations (date : datetime) (pages total streak : Z)
| EditUsage           (* Format: /edit 05.01.2026 60 *)
| Updated (date : datetime) (pages : Z).

Definition parse_date (date_str : string) : result datetime :=
  match strptime date_str "%d.%m.%Y" with
  | Some t => Ok t
  | None =>
      match strptime date_str "%Y-%m-%d" with
      | Some t => Ok t
      | None =>
          match strptime date_str "%d/%m/%Y" with
          | Some t => Ok t
          | None => Raise ValueError
          end
      end
  end.

Definition int_ (text : string) : result Z :=
  match py_int text with
  | Some n => Ok n
  | None => Raise ValueError
  end.

(** [/add]: [user] is the Telegram id of the sender.  The two readings of
    the clock in the handler are taken as one. *)
Definition add_command (user : Z) (args : list string) (clk : Clock)
    (db : DB) : DB * list reply :=
  match args with
  | [] => (db, [AddUsage])
  | _ =>
      let parsed :=
        match args with
        | [a0] =>
            pages <- int_ a0 ;; Ok (Some (now clk, pages))
        | [a0; a1] =>
            date <- parse_date a0 ;;
            pages <- int_ a1 ;; Ok (Some (date, pages))
        | _ => Ok None
        end in
      match parsed with
      | Raise _ => (db, [PagesNotAnInteger])
      | Ok None => (db, [BadFormat])
      | Ok (Some (date, pages)) =>
          if (pages <=? 0) || (500 <? pages) then (db, [PagesOutOfRange])
          else if negb (date_leb (dt_date date) (dt_date (now clk)))
          then (db, [FutureDate])
          else
            let db' :=
              commit db (create_reading_log
                           (ReadingLogCreate.mk date pages) user clk db) in
            match get_user_by_telegram user db' with
            | Raise _ => (db', [UserNotFound])
            | Ok user_data =>
                (db', [Congratulations date pages
                         (User.total_pages user_data)
                         (User.current_streak user_data)])
            end
      end
  end.

(** [/edit] *)
Definition edit_command (user : Z) (args : list string) (db : DB)
  : DB * list reply :=
  match args with
  | [a0; a1] =>
      match (date <- parse_date a0 ;; pages <- int_ a1 ;; Ok (date, pages)) with
      | Raise _ => (db, [BadFormat])
      | Ok (date, pages) =>
          let db' :=
            commit db (update_reading_log (strftime date "%Y-%m-%d")
                                          pages user db) in
          (db', [Updated date pages])
      end
  | _ => (db, [EditUsage])
  end.

(* ------------------------------------------------------------------ *)
(** *** The announcement job *)

(** One call of [application.bot.send_message], made while dispatching
    announcement [ev_announcement]; [ev_delivered] is false when the call
    raised. *)
Record event : Type := mkevent {
  ev_announcement : Z;
  ev_chat_id : Z;
  ev_text : string;
  ev_delivered : bool
}.

Definition GROUP_ID : Z := -1002184957543.

(** The prefix of a broadcast: a megaphone (U+1F4E2, in UTF-8) and a
    space. *)
Definition MEGAPHONE : string :=
  String (ascii_of_nat 240) (String (ascii_of_nat 159)
    (String (ascii_of_nat 147) (String (ascii_of_nat 162) " "))).

Definition announcement_text (message : string) : string :=
  (MEGAPHONE ++ message)%string.

Section Job.

(** Whether the [k]-th send of the tick, to this chat with this text,
    goes through. *)
Variable deliver : nat -> Z -> string -> bool.

(** The inner loop: every listed user is tried; a failure is logged and
    the loop goes on. *)
Fixpoint send_each (ann_id : Z) (text : string) (k : nat)
    (us : list UserOut.t) : list event :=
  match us with
  | [] => []
  | u :: t =>
      mkevent ann_id (UserOut.telegram_id u) text
              (deliver k (UserOut.telegram_id u) text)
      :: send_each ann_id text (S k) t
  end.

(** The outer loop over the fetched announcements.  A failed send to the
    group leaves the loop through the handler around the whole job. *)
Fixpoint dispatch (clk : Clock) (anns : list AnnouncementOut.t) (k : nat)
    (db : DB) : DB * list event :=
  match anns with
  | [] => (db, [])
  | ann :: rest =>
      match AnnouncementOut.sent_at ann with
      | Some _ => dispatch clk rest k db
      | None =>
          let message := AnnouncementOut.message ann in
          let text := announcement_text message in
          let ann_id := AnnouncementOut.id ann in
          if deliver k GROUP_ID text then
            let us := list_users "" "" 100 db in
            let evs :=
              mkevent ann_id GROUP_ID text true
              :: send_each ann_id text (S k) us in
            let db' := commit db (mark_announcement_sent ann_id clk db) in
            let '(db'', evs') :=
              dispatch clk rest (S k + List.length us) db' in
            (db'', evs ++ evs')
          else (db, [mkevent ann_id GROUP_ID text false])
      end
  end.

Definition send_announcements (clk : Clock) (db : DB) : DB * list event :=
  let announcements := list_announcements db in
  dispatch clk announcements 0 db.

End Job.

(** What happens to the announcements over time: the admin dashboard
    creates one, the job runs a tick (with its own deliveries), or the
    mark-sent endpoint is called. *)
Inductive activity : Type :=
| Announce (message : string) (clk : Clock)
| Tick (deliver : nat -> Z -> string -> bool) (clk : Clock)
| MarkSent (announcement_id : Z) (clk : Clock).

Definition perform (a : activity) (db : DB) : DB * list event :=
  match a with
  | Announce message clk =>
      (commit db (create_announcement (Some message) (Some "general")
                    (Some "all") false true clk db), [])
  | Tick deliver clk => send_announcements deliver clk db
  | MarkSent announcement_id clk =>
      (commit db (mark_announcement_sent announcement_id clk db), [])
  end.

Fixpoint run (schedule : list activity) (db : DB) : DB * list event :=
  match schedule with
  | [] => (db, [])
  | a :: rest =>
      let '(db', evs) := perform a db in
      let '(db'', evs') := run rest db' in
      (db'', evs ++ evs')
  end.

End Service.

(* ================================================================== *)
(** ** The running total and the requests that change it *)

(** The pages of the logs that belong to user id [uid]. *)
Definition log_pages_of (uid : Z) (logs : list ReadingLog.t) : Z :=
  sum_Z (map ReadingLog.pages
           (filter (fun l => ReadingLog.user_id l =? uid) logs)).

(** Every user's running total is the sum of the pages of their logs. *)
Definition totals_consistent (db : DB) : Prop :=
  forall u, In u (users db) ->
    User.total_pages u = log_pages_of (User.id u) (reading_logs db).

(** The integrity constraints of the two tables: the primary keys are
    unique, and every log belongs to a user of the store. *)
Definition integrity (db : DB) : Prop :=
  NoDup (map User.id (users db))
  /\ NoDup (map ReadingLog.id (reading_logs db))
  /\ (forall l, In l (reading_logs db) ->
      In (ReadingLog.user_id l) (map User.id (users db))).

Definition store_ok (db : DB) : Prop := integrity db /\ totals_consistent db.

(** The requests that touch reading logs, and registration. *)
Inductive request : Type :=
| Register (user : UserCreate.t)
| CreateLog (telegram_id : Z) (log : ReadingLogCreate.t)
| EditLog (telegram_id : Z) (date : string) (pages : Z)
| DeleteLog (telegram_id : Z) (date : string).

Section Requests.
Variable strptime : string -> string -> option datetime.

Definition serve (clk : Clock) (r : request) (db : DB) : DB :=
  match r with
  | Register user => commit db (create_user user clk db)
  | CreateLog tid log => commit db (create_reading_log log tid clk db)
  | EditLog tid date pages =>
      commit db (update_reading_log strptime date pages tid db)
  | DeleteLog tid date => commit db (delete_reading_log strptime date tid db)
  end.

Fixpoint serve_all (rs : list (Clock * request)) (db : DB) : DB :=
  match rs with
  | [] => db
  | (clk, r) :: rest => serve_all rest (serve clk r db)
  end.
End Requests.

(* ================================================================== *)
(** ** Notions used to state the properties of the reports and the job *)


(** The sum of the pages [u] logged on the days [start_date..end_date]. *)
Definition windowed_pages (db : DB) (u : User.t) (start_date end_date : date)
  : Z :=
  sum_Z (map ReadingLog.pages
           (filter (fun l =>
                      (ReadingLog.user_id l =? User.id u)
                      && (date_leb start_date (dt_date (ReadingLog.date l))
                          && date_leb (dt_date (ReadingLog.date l)) end_date))
                   (reading_logs db))).

(** Whether [u] has a log on one of the days [start_date..end_date]. *)
Definition reads_in_window (db : DB) (u : User.t) (start_date end_date : date)
  : bool :=
  existsb (fun l =>
             (ReadingLog.user_id l =? User.id u)
             && (date_leb start_date (dt_date (ReadingLog.date l))
                 && date_leb (dt_date (ReadingLog.date l)) end_date))
          (reading_logs db).

(** The logs of [u] that the window keeps. *)
Definition window_logs (w : option (date * date)) (db : DB) (u : User.t)
  : list ReadingLog.t :=
  filter (in_window w)
         (filter (fun l => ReadingLog.user_id l =? User.id u) (reading_logs db)).

(** The joined rows of the users [us], each with the logs [wl] keeps. *)
Definition rows_of (wl : User.t -> list ReadingLog.t) (us : list User.t)
  : list (User.t * ReadingLog.t) :=
  flat_map (fun u => map (pair u) (wl u)) us.

(** Every row of the table with id [i] has its sent time set. *)
Definition marked_sent (i : Z) (db : DB) : Prop :=
  forall a, In a (announcements db) -> Announcement.id a = i ->
    Announcement.sent_at a <> None.

(* ================================================================== *)
(** ** A reference runtime on ASCII text

    Instances of the four library functions the service is parameterised
    by, enough to run the examples: decimal integers with an optional
    sign, the three date formats of [parse_date] with ASCII digits, and
    plain substring search. *)
Module AsciiRuntime.

Definition digit (c : ascii) : option Z :=
  let n := Z.of_N (N_of_ascii c) in
  if (48 <=? n) && (n <=? 57) then Some (n - 48) else None.

Fixpoint digits (s : string) (acc : Z) : option Z :=
  match s with
  | EmptyString => Some acc
  | String c t =>
      match digit c with
      | Some d => digits t (10 * acc + d)
      | None => None
      end
  end.

Definition number (s : string) : option Z :=
  match s with
  | EmptyString => None
  | _ => digits s 0
  end.

Definition py_int (s : string) : option Z :=
  match s with
  | String "-" t => option_map Z.opp (number t)
  | String "+" t => number t
  | _ => number s
  end.

Fixpoint split (sep : ascii) (s : string) : list string :=
  match s with
  | EmptyString => [EmptyString]
  | String c t =>
      if Ascii.eqb c sep then EmptyString :: split sep t
      else
        match split sep t with
        | h :: r => String c h :: r
        | [] => [String c EmptyString]
        end
  end.

(** A numeric field of [lo] to [hi] digits. *)
Definition field (lo hi : nat) (s : string) : option Z :=
  if (lo <=? String.length s)%nat && (String.length s <=? hi)%nat
  then number s else None.

Definition make (y m d : option Z) : option datetime :=
  match y, m, d with
  | Some y, Some m, Some d =>
      if valid_date (mkdate y m d) then Some (mkdatetime (mkdate y m d) 0)
      else None
  | _, _, _ => None
  end.

Definition strptime (text fmt : string) : option datetime :=
  if String.eqb fmt "%d.%m.%Y" then
    match split "." text with
    | [d; m; y] => make (field 4 4 y) (field 1 2 m) (field 1 2 d)
    | _ => None
    end
  else if String.eqb fmt "%Y-%m-%d" then
    match split "-" text with
    | [y; m; d] => make (field 4 4 y) (field 1 2 m) (field 1 2 d)
    | _ => None
    end
  else if String.eqb fmt "%d/%m/%Y" then
    match split "/" text with
    | [d; m; y] => make (field 4 4 y) (field 1 2 m) (field 1 2 d)
    | _ => None
    end
  else None.

Definition digit_char (d : Z) : ascii := ascii_of_N (Z.to_N (48 + d mod 10)).

Definition pad2 (n : Z) : string :=
  String (digit_char (n / 10)) (String (digit_char n) EmptyString).

Definition pad4 (n : Z) : string :=
  String (digit_char (n / 1000)) (String (digit_char (n / 100)) (pad2 n)).

Definition strftime (t : datetime) (fmt : string) : string :=
  if String.eqb fmt "%Y-%m-%d" then
    (pad4 (year (dt_date t)) ++ "-" ++ pad2 (month (dt_date t)) ++ "-"
     ++ pad2 (day (dt_date t)))%string
  else EmptyString.

Fixpoint contains (sub s : string) : bool :=
  String.prefix sub s
  || match s with
     | EmptyString => false
     | String _ t => contains sub t
     end.

Definition sql_contains (column : option string) (search : string) : bool :=
  match column with
  | None => false
  | Some s => contains search s
  end.

End AsciiRuntime.

(* ================================================================== *)
(** ** Stores and clocks of the examples *)

Definition at_noon (y m d : Z) : datetime := mkdatetime (mkdate y m d) 43200000000.

Definition clock_at (y m d : Z) : Clock := mkClock (at_noon y m d) (at_noon y m d).

(** Wednesday 2026-01-07. *)
Definition wednesday : Clock := clock_at 2026 1 7.

Definition reader (id : Z) (name : string) (total : Z) : User.t :=
  User.mk id (1000 + id) None name None "active" 50 1500 "20:00" "GMT+5"
          0 0 total 0 (at_noon 2026 1 1) (at_noon 2026 1 1).

Definition log_on (id user_id : Z) (y m d : Z) (pages : Z) : ReadingLog.t :=
  ReadingLog.mk id user_id (at_noon y m d) pages.

(** Three readers whose logs add up to A: 120, B: 200, C: 200. *)
Definition db_abc : DB :=
  mkDB [reader 1 "A" 120; reader 2 "B" 200; reader 3 "C" 200]
       [log_on 1 1 2026 1 5 100; log_on 2 1 2026 1 6 20;
        log_on 3 2 2026 1 5 200;
        log_on 4 3 2026 1 3 150; log_on 5 3 2026 1 7 50]
       [].

(** The week of Saturday 2026-01-03 to Friday 2026-01-09: Ali logs 500
    pages in it (and 700 the day before it), Vali 499, Gani none. *)
Definition db_week : DB :=
  mkDB [reader 1 "Ali" 1200; reader 2 "Vali" 499; reader 3 "Gani" 600]
       [log_on 1 1 2026 1 2 700; log_on 2 1 2026 1 3 300;
        log_on 3 2 2026 1 7 499; log_on 4 1 2026 1 9 200;
        log_on 5 3 2026 1 10 600]
       [].

(** One reader with ten pages on 2026-01-05. *)
Definition db_edit : DB :=
  mkDB [reader 1 "Ali" 10] [log_on 1 1 2026 1 5 10] [].

Definition notice (id : Z) (message : string) (day : Z)
    (sent_at : option datetime) : Announcement.t :=
  Announcement.mk id message "general" "all" 0 1 (at_noon 2026 1 day) sent_at.

(** 101 readers and one announcement waiting to be sent. *)
Definition db_crowd : DB :=
  mkDB (map (fun i => reader (Z.of_nat i) "reader" 0) (seq 1 101)) []
       [notice 1 "Salom" 6 None].

(** One reader and 21 announcements waiting, created on 21 successive
    days; number 1 is the oldest. *)
Definition db_backlog : DB :=
  mkDB [reader 1 "Ali" 0] []
       (map (fun i => notice (Z.of_nat i) "Salom" (Z.of_nat i) None)
            (seq 1 21)).

(** An announcement already sent, and one waiting. *)
Definition db_sent : DB :=
  mkDB [reader 1 "Ali" 0; reader 2 "Vali" 0] []
       [notice 1 "Eski" 5 (Some (at_noon 2026 1 5)); notice 2 "Yangi" 6 None].

(** A day of requests on [db_abc]: a log is added, one is edited, one is
    deleted, an edit names a date that does not exist, a reader joins. *)
Definition requests_abc : list (Clock * request) :=
  [(wednesday, CreateLog 1001 (ReadingLogCreate.mk (at_noon 2026 1 7) 40));
   (wednesday, EditLog 1002 "2026-01-05" 150);
   (wednesday, DeleteLog 1003 "2026-01-03");
   (wednesday, EditLog 1001 "2026-02-30" 5);
   (wednesday, Register (UserCreate.mk 1004 None "D" None))].

Definition always_delivered : nat -> Z -> string -> bool := fun _ _ _ => true.


(* ================================================================== *)
(** ** api.py: the remaining endpoints *)

Definition set_status (v : string) (u : User.t) : User.t :=
  User.mk (User.id u) (User.telegram_id u) (User.username u)
          (User.first_name u) (User.last_name u) v (User.daily_goal u)
          (User.monthly_goal u) (User.reminder_time u) (User.timezone u)
          (User.current_streak u) (User.longest_streak u)
          (User.total_pages u) (User.books_completed u) (User.join_date u)
          (User.last_active u).

Definition set_daily_goal (v : Z) (u : User.t) : User.t :=
  User.mk (User.id u) (User.telegram_id u) (User.username u)
          (User.first_name u) (User.last_name u) (User.status u) v
          (User.monthly_goal u) (User.reminder_time u) (User.timezone u)
          (User.current_streak u) (User.longest_streak u)
          (User.total_pages u) (User.books_completed u) (User.join_date u)
          (User.last_active u).

Definition set_monthly_goal (v : Z) (u : User.t) : User.t :=
  User.mk (User.id u) (User.telegram_id u) (User.username u)
          (User.first_name u) (User.last_name u) (User.status u)
          (User.daily_goal u) v (User.reminder_time u) (User.timezone u)
          (User.current_streak u) (User.longest_streak u)
          (User.total_pages u) (User.books_completed u) (User.join_date u)
          (User.last_active u).

Definition set_reminder_time (v : string) (u : User.t) : User.t :=
  User.mk (User.id u) (User.telegram_id u) (User.username u)
          (User.first_name u) (User.last_name u) (User.status u)
          (User.daily_goal u) (User.monthly_goal u) v (User.timezone u)
          (User.current_streak u) (User.longest_streak u)
          (User.total_pages u) (User.books_completed u) (User.join_date u)
          (User.last_active u).

Definition set_timezone (v : string) (u : User.t) : User.t :=
  User.mk (User.id u) (User.telegram_id u) (User.username u)
          (User.first_name u) (User.last_name u) (User.status u)
          (User.daily_goal u) (User.monthly_goal u) (User.reminder_time u) v
          (User.current_streak u) (User.longest_streak u)
          (User.total_pages u) (User.books_completed u) (User.join_date u)
          (User.last_active u).

(** The body of the partial update; a field left out or sent as [null] is
    [None]. *)
Module UpdateFields.
Record t : Type := mk {
  daily_goal : option Z;
  monthly_goal : option Z;
  reminder_time : option string;
  timezone : option string
}.
End UpdateFields.

(** [setattr(user, key, value)] when the value is not [None]. *)
Definition set_if {A} (set : A -> User.t -> User.t) (v : option A)
    (u : User.t) : User.t :=
  match v with
  | Some x => set x u
  | None => u
  end.

Definition apply_fields (fields : UpdateFields.t) (u : User.t) : User.t :=
  set_if set_timezone (UpdateFields.timezone fields)
    (set_if set_reminder_time (UpdateFields.reminder_time fields)
       (set_if set_monthly_goal (UpdateFields.monthly_goal fields)
          (set_if set_daily_goal (UpdateFields.daily_goal fields) u))).

Definition update_user_fields (telegram_id : Z) (fields : UpdateFields.t)
    (db : DB) : result (DB * unit) :=
  match user_by_telegram telegram_id db with
  | None => Raise (HTTPException 404 "User not found")
  | Some user =>
      Ok (mkDB (update_user (User.id user) (apply_fields fields) (users db))
               (reading_logs db) (announcements db), tt)
  end.

Definition update_user_status (user_id : Z) (status : string) (db : DB)
  : result (DB * unit) :=
  match find (fun u => User.id u =? user_id) (users db) with
  | None => Raise (HTTPException 404 "User not found")
  | Some user =>
      Ok (mkDB (update_user (User.id user) (set_status status) (users db))
               (reading_logs db) (announcements db), tt)
  end.

(** [t.strftime("%H:%M")]: two digits each. *)
Definition hour (t : datetime) : Z := dt_time t / 3600000000.
Definition minute (t : datetime) : Z := (dt_time t / 60000000) mod 60.

Definition strftime_HM (t : datetime) : string :=
  (AsciiRuntime.pad2 (hour t) ++ ":" ++ AsciiRuntime.pad2 (minute t))%string.

Module ReminderOut.
Record t : Type := mk { telegram_id : Z; first_name : string }.
End ReminderOut.

Definition get_users_need_reminder (clk : Clock) (db : DB)
  : list ReminderOut.t :=
  let now_hhmm := strftime_HM (now clk) in
  map (fun u => ReminderOut.mk (User.telegram_id u) (User.first_name u))
      (filter (fun u => String.eqb (User.reminder_time u) now_hhmm)
              (users db)).

Module MonthlyEntry.
Record t : Type := mk { rank : Z; name : string; pages : Z }.
End MonthlyEntry.


Module ActivityDay.
Record t : Type := mk { Day : string; Pages : Z; Users : Z }.
End ActivityDay.





(* ================================================================== *)
(** ** bot.py: the remaining commands and the reminder job *)

(** One call of [send_message] by the reminder job. *)
Record reminder : Type := mkreminder {
  rm_chat_id : Z;
  rm_first_name : string;
  rm_delivered : bool
}.

(** The reminder job: every user the API returns is tried, a failed send
    is logged and the loop goes on.  The text is the fixed greeting with
    the first name in it. *)
Fixpoint remind_each (deliver : nat -> Z -> bool) (k : nat)
    (us : list ReminderOut.t) : list reminder :=
  match us with
  | [] => []
  | u :: t =>
      mkreminder (ReminderOut.telegram_id u) (ReminderOut.first_name u)
                 (deliver k (ReminderOut.telegram_id u))
      :: remind_each deliver (S k) t
  end.

Definition send_reminders (deliver : nat -> Z -> bool) (clk : Clock)
    (db : DB) : list reminder :=
  let users := get_users_need_reminder clk db in
  remind_each deliver 0 users.

(** [s.replace(old, "")]: the occurrences of [old], found from the left
    and not overlapping, are dropped; [skip] counts the characters of a
    found occurrence still to drop. *)
Fixpoint remove_go (old : string) (skip : nat) (s : string) : string :=
  match s with
  | EmptyString => EmptyString
  | String c t =>
      match skip with
      | S k => remove_go old k t
      | O =>
          if String.prefix old s
          then remove_go old (String.length old - 1) t
          else String c (remove_go old 0 t)
      end
  end.

Definition remove_all (old s : string) : string := remove_go old 0 s.


Inductive reminder_reply : Type :=
| ReminderUsage       (* Format: /reminder HH:MM (masalan: 20:00) *)
| ReminderSet (time_str : string).

Inductive delete_reply : Type :=
| DeleteUsage         (* Format: /delete 05.01.2026 *)
| DeleteBadDate       (* Sana noto'g'ri! *)
| ConfirmDelete (date : datetime) (yes_data no_data : string)
| Deleted             (* Natija o'chirildi! *)
| Cancelled.          (* Bekor qilindi *)

Section Commands2.

Variable strptime : string -> string -> option datetime.
Variable py_int : string -> option Z.
Variable strftime : datetime -> string -> string.

(** [text.lower()]. *)
Variable py_lower : string -> string.

(** [re.match(r"^([01]\d|2[0-3]):([0-5]\d)$", text)] found a match. *)
Variable matches_HH_MM : string -> bool.


(** [/reminder] *)
Definition reminder_command (user : Z) (args : list string) (db : DB)
  : DB * list reminder_reply :=
  match args with
  | [a0] =>
      if negb (matches_HH_MM a0) then (db, [ReminderUsage])
      else
        (commit db (update_user_fields user
                      (UpdateFields.mk None None (Some a0) None) db),
         [ReminderSet a0])
  | _ => (db, [ReminderUsage])
  end.

(** [/delete]: asks for confirmation with two buttons. *)
Definition delete_command (user : Z) (args : list string) (db : DB)
  : DB * list delete_reply :=
  match args with
  | [a0] =>
      match parse_date strptime a0 with
      | Raise _ => (db, [DeleteBadDate])
      | Ok date =>
          (db, [ConfirmDelete date
                  ("delete_confirm_" ++ strftime date "%Y-%m-%d")%string
                  "delete_cancel"])
      end
  | _ => (db, [DeleteUsage])
  end.

(** A press on one of the buttons; [data] is the button's callback data. *)
Definition button_callback (user : Z) (data : string) (db : DB)
  : DB * list delete_reply :=
  if String.prefix "delete_confirm_" data then
    let date_str := remove_all "delete_confirm_" data in
    (commit db (delete_reading_log strptime date_str user db), [Deleted])
  else if String.eqb data "delete_cancel" then (db, [Cancelled])
  else (db, []).

End Commands2.

(* ================================================================== *)
(** ** Notions used to state the properties of the remaining code *)

(** What mark-sent does to one row. *)
Definition mark_row (i : Z) (t : datetime) (a : Announcement.t)
  : Announcement.t :=
  if Announcement.id a =? i then Announcement.set_sent_at (Some t) a else a.

(** The rows of the listing before they are made into dictionaries. *)
Definition newest_20 (anns : list Announcement.t) : list Announcement.t :=
  sql_limit 20
    (order_by (fun a b => datetime_leb (Announcement.created_at b)
                                       (Announcement.created_at a)) anns).

(** How a tick in which the group sends go through changes the store:
    nothing but sent times, which it sets for the ids in [D]. *)
Definition only_marks (D : list Z) (db db1 : DB) : Prop :=
  users db1 = users db /\ reading_logs db1 = reading_logs db
  /\ exists g : Announcement.t -> Announcement.t,
       announcements db1 = map g (announcements db)
       /\ forall a,
            Announcement.id (g a) = Announcement.id a
            /\ Announcement.created_at (g a) = Announcement.created_at a
            /\ Announcement.message (g a) = Announcement.message a
            /\ (Announcement.sent_at a <> None \/ In (Announcement.id a) D ->
                Announcement.sent_at (g a) <> None).

Definition unsent_ids (rows : list AnnouncementOut.t) : list Z :=
  map AnnouncementOut.id
      (filter (fun r => match AnnouncementOut.sent_at r with
                        | None => true
                        | Some _ => false
                        end) rows).

(** What a request on reading logs leaves alone in every stored user. *)
Definition untouched (u : User.t) : Z * string * Z * Z * Z :=
  (User.telegram_id u, User.first_name u, User.current_streak u,
   User.longest_streak u, User.books_completed u).


(** The answer of an endpoint, without the store. *)
Definition answer {A} (r : result (DB * A)) : result A :=
  match r with
  | Ok (_, a) => Ok a
  | Raise e => Raise e
  end.




(* ================================================================== *)
(** ** More of the reference runtime and of the examples *)

(** Instances on ASCII text of the two library functions the remaining
    commands are parameterised by: [lower] on the letters A to Z, and the
    pattern of [/reminder] on ASCII digits. *)
Module AsciiText.



Definition between (lo hi c : ascii) : bool :=
  ((N_of_ascii lo <=? N_of_ascii c) && (N_of_ascii c <=? N_of_ascii hi))%N.

Definition matches_HH_MM (s : string) : bool :=
  match s with
  | String h1 (String h2 (String ":" (String m1 (String m2 EmptyString)))) =>
      ((between "0" "1" h1 && between "0" "9" h2)
       || (Ascii.eqb h1 "2" && between "0" "3" h2))
      && between "0" "5" m1 && between "0" "9" m2
  | _ => false
  end.

End AsciiText.

Definition never_delivered : nat -> Z -> string -> bool := fun _ _ _ => false.

(** The reminder sends all fail. *)
Definition reminders_fail : nat -> Z -> bool := fun _ _ => false.

(** 40 pages read on Wednesday 2026-01-07, and 15 more the same day. *)
Definition forty_pages : ReadingLogCreate.t :=
  ReadingLogCreate.mk (at_noon 2026 1 7) 40.


(* ================================================================== *)
(** * Properties *)

(** ** The calendar *)

(** Linear arithmetic with the divisions by constants of the calendar. *)
Ltac zlia := Z.div_mod_to_equations; lia.

Lemma days_before_year_succ (y : Z) :
  _days_before_year (y + 1)
  = _days_before_year y + 365 + (if _is_leap y then 1 else 0).
Proof.
  unfold _days_before_year, _is_leap.
  replace (y + 1 - 1) with y by lia.
  destruct (y mod 4 =? 0) eqn:E4; destruct (y mod 100 =? 0) eqn:E100;
    destruct (y mod 400 =? 0) eqn:E400; cbn [andb orb negb];
    rewrite ?Z.eqb_eq, ?Z.eqb_neq in *; zlia.
Qed.

Lemma days_before_year_mono (y1 y2 : Z) :
  y1 <= y2 -> _days_before_year y1 <= _days_before_year y2.
Proof. unfold _days_before_year. intros. zlia. Qed.

(** The month and day computed from a day of the year are right, by
    running through the 365 (or 366) days. *)
Lemma yday_ok_all (leap : bool) (n : Z) :
  0 <= n < 365 + (if leap then 1 else 0) -> yday_ok leap n = true.
Proof.
  intros H.
  assert (A : forallb (fun k => yday_ok true (Z.of_nat k)
                                && (yday_ok false (Z.of_nat k)
                                    || (k =? 365)%nat))
                      (seq 0 366) = true)
    by (vm_compute; reflexivity).
  rewrite forallb_forall in A.
  specialize (A (Z.to_nat n)).
  rewrite Z2Nat.id in A by lia.
  assert (I : In (Z.to_nat n) (seq 0 366))
    by (apply in_seq; destruct leap; lia).
  apply A in I. apply andb_true_iff in I as [I1 I2].
  destruct leap; [exact I1|].
  apply orb_true_iff in I2 as [I2|I2]; [exact I2|].
  apply Nat.eqb_eq in I2. lia.
Qed.

(** A year written with the quotients of [_ord2ymd]: the number of
    400-year, 100-year and 4-year cycles and of years before it. *)
Lemma is_leap_digits (a b c e : Z) :
  0 <= b <= 3 -> 0 <= c <= 24 -> 0 <= e <= 3 ->
  _is_leap (a * 400 + 1 + (b * 100 + c * 4 + e))
  = (e =? 3) && (negb (c =? 24) || (b =? 3)).
Proof.
  intros Hb Hc He. unfold _is_leap.
  destruct (e =? 3) eqn:E3; destruct (c =? 24) eqn:E24;
    destruct (b =? 3) eqn:B3; cbn [andb orb negb];
    rewrite ?Z.eqb_eq, ?Z.eqb_neq in *;
    rewrite ?andb_true_iff, ?andb_false_iff, ?orb_true_iff, ?orb_false_iff,
      ?negb_true_iff, ?negb_false_iff, ?Z.eqb_eq, ?Z.eqb_neq.
  all: zlia.
Qed.

Lemma days_before_year_digits (a b c e : Z) :
  0 <= b <= 3 -> 0 <= c <= 24 -> 0 <= e <= 3 ->
  _days_before_year (a * 400 + 1 + (b * 100 + c * 4 + e))
  = a * 146097 + b * 36524 + c * 1461 + e * 365.
Proof. intros. unfold _days_before_year. zlia. Qed.

Lemma yday2md_year (y : Z) (l : bool) (n : Z) : year (_yday2md y l n) = y.
Proof. unfold _yday2md. cbv zeta. destruct (_ <? _); reflexivity. Qed.

Lemma yday2md_month_day (y : Z) (l : bool) (n : Z) :
  month (_yday2md y l n) = month (_yday2md 1 l n)
  /\ day (_yday2md y l n) = day (_yday2md 1 l n).
Proof. unfold _yday2md. cbv zeta. destruct (_ <? _); split; reflexivity. Qed.

Lemma yday2md_spec (y : Z) (n : Z) :
  0 <= n < 365 + (if _is_leap y then 1 else 0) ->
  let d := _yday2md y (_is_leap y) n in
  year d = y /\ 1 <= month d <= 12
  /\ 1 <= day d <= _days_in_month y (month d)
  /\ _days_before_month y (month d) + day d = n + 1.
Proof.
  intros H d.
  pose proof (yday_ok_all _ _ H) as K. unfold yday_ok in K. cbv zeta in K.
  destruct (yday2md_month_day y (_is_leap y) n) as [Em Ed].
  fold d in Em, Ed. rewrite <- Em, <- Ed in K.
  unfold _days_in_month, _days_before_month.
  rewrite !andb_true_iff, !Z.leb_le, Z.eqb_eq in K.
  split; [apply yday2md_year | lia].
Qed.

(** [_ord2ymd] returns a calendar date whose ordinal is its argument. *)
Lemma ord2ymd_spec (n : Z) :
  1 <= n ->
  let d := _ord2ymd n in
  1 <= year d /\ 1 <= month d <= 12
  /\ 1 <= day d <= _days_in_month (year d) (month d)
  /\ toordinal d = n
  /\ (n <= _MAXORDINAL -> year d <= MAXYEAR).
Proof.
  intros Hn. unfold _ord2ymd. cbv zeta.
  unfold _DI400Y, _DI100Y, _DI4Y.
  remember (n - 1) as n0 eqn:En0.
  set (a := n0 / 146097). set (r1 := n0 mod 146097).
  set (b := r1 / 36524). set (r2 := r1 mod 36524).
  set (c := r2 / 1461). set (r3 := r2 mod 1461).
  set (e := r3 / 365). set (r4 := r3 mod 365).
  assert (Ha : 0 <= a /\ n0 = 146097 * a + r1 /\ 0 <= r1 < 146097)
    by (subst a r1; zlia).
  assert (Hb : 0 <= b <= 4 /\ r1 = 36524 * b + r2 /\ 0 <= r2 < 36524
               /\ (b = 4 -> r2 = 0))
    by (subst b r2; zlia).
  assert (Hc : 0 <= c <= 24 /\ r2 = 1461 * c + r3 /\ 0 <= r3 < 1461
               /\ (c = 24 -> r3 < 1460))
    by (subst c r3; zlia).
  assert (He : 0 <= e <= 4 /\ r3 = 365 * e + r4 /\ 0 <= r4 < 365
               /\ (e = 4 -> r4 = 0))
    by (subst e r4; zlia).
  clearbody a r1 b r2 c r3 e r4.
  destruct ((e =? 4) || (b =? 4)) eqn:Last.
  - (* the last day of a leap year *)
    cbn [year month day]. unfold toordinal. cbn [year month day].
    unfold _ymd2ord, _days_in_month, _days_before_month.
    apply orb_true_iff in Last. rewrite !Z.eqb_eq in Last.
    assert (Ey : a * 400 + 1 + (b * 100 + c * 4 + e) - 1
                 = a * 400 + 1
                   + ((if b =? 4 then 3 else b) * 100
                      + (if b =? 4 then 24 else c) * 4 + 3)).
    { destruct (b =? 4) eqn:B4; rewrite ?Z.eqb_eq, ?Z.eqb_neq in B4; lia. }
    rewrite Ey.
    assert (Hb' : 0 <= (if b =? 4 then 3 else b) <= 3)
      by (destruct (b =? 4) eqn:B4; rewrite ?Z.eqb_eq, ?Z.eqb_neq in B4; lia).
    assert (Hc' : 0 <= (if b =? 4 then 24 else c) <= 24)
      by (destruct (b =? 4) eqn:B4; lia).
    rewrite is_leap_digits, days_before_year_digits by lia.
    change (tbl _DAYS_IN_MONTH 12) with 31.
    change (tbl _DAYS_BEFORE_MONTH 12) with 334.
    change (3 =? 3) with true. change (12 =? 2) with false.
    change (2 <? 12) with true. cbn [andb].
    assert (L : negb ((if b =? 4 then 24 else c) =? 24)
                || ((if b =? 4 then 3 else b) =? 3) = true).
    { destruct (b =? 4) eqn:B4; [reflexivity|].
      rewrite Z.eqb_neq in B4. apply orb_true_iff. left.
      apply negb_true_iff, Z.eqb_neq. lia. }
    rewrite L.
    unfold _MAXORDINAL, MAXYEAR.
    destruct (b =? 4) eqn:B4; rewrite ?Z.eqb_eq, ?Z.eqb_neq in B4; lia.
  - apply orb_false_iff in Last. rewrite !Z.eqb_neq in Last.
    rewrite <- (is_leap_digits a b c e) by lia.
    set (y := a * 400 + 1 + (b * 100 + c * 4 + e)).
    assert (R : 0 <= r4 < 365 + (if _is_leap y then 1 else 0))
      by (destruct (_is_leap y); lia).
    destruct (yday2md_spec y r4 R) as (Y & M & D & O).
    rewrite Y. unfold toordinal. rewrite Y.
    unfold _ymd2ord. subst y.
    rewrite days_before_year_digits in * by lia.
    unfold _MAXORDINAL, MAXYEAR. lia.
Qed.

Ltac month_cases m :=
  let H := fresh "Hm" in
  assert (H : m = 1 \/ m = 2 \/ m = 3 \/ m = 4 \/ m = 5 \/ m = 6 \/ m = 7
              \/ m = 8 \/ m = 9 \/ m = 10 \/ m = 11 \/ m = 12) by lia;
  repeat (destruct H as [H | H]); subst m.

Ltac is_bool_value v := match v with true => idtac | false => idtac end.

(** Evaluate the comparisons between literals in the goal and hypotheses. *)
Ltac cmp_eval :=
  repeat match goal with
  | |- context [Z.eqb ?a ?b] =>
      let v := eval vm_compute in (Z.eqb a b) in
      is_bool_value v; change (Z.eqb a b) with v
  | |- context [Z.ltb ?a ?b] =>
      let v := eval vm_compute in (Z.ltb a b) in
      is_bool_value v; change (Z.ltb a b) with v
  | H : context [Z.eqb ?a ?b] |- _ =>
      let v := eval vm_compute in (Z.eqb a b) in
      is_bool_value v; change (Z.eqb a b) with v in H
  | H : context [Z.ltb ?a ?b] |- _ =>
      let v := eval vm_compute in (Z.ltb a b) in
      is_bool_value v; change (Z.ltb a b) with v in H
  end; cbn [andb orb negb] in *.

Ltac tbl_eval :=
  repeat match goal with
  | |- context [tbl ?t ?i] =>
      let v := eval vm_compute in (tbl t i) in change (tbl t i) with v
  | H : context [tbl ?t ?i] |- _ =>
      let v := eval vm_compute in (tbl t i) in change (tbl t i) with v in H
  end.

Lemma valid_date_wf (d : date) : valid_date d = true -> wf_date d.
Proof.
  unfold valid_date, wf_date, MINYEAR. rewrite !andb_true_iff, !Z.leb_le. lia.
Qed.

Lemma month_in_year (y m d : Z) :
  1 <= m <= 12 -> 1 <= d <= _days_in_month y m ->
  1 <= _days_before_month y m + d <= 365 + (if _is_leap y then 1 else 0).
Proof.
  intros Hm Hd. unfold _days_in_month, _days_before_month in *.
  destruct (_is_leap y); month_cases m; tbl_eval; cmp_eval; lia.
Qed.

Lemma month_day_inj (y m1 d1 m2 d2 : Z) :
  1 <= m1 <= 12 -> 1 <= d1 <= _days_in_month y m1 ->
  1 <= m2 <= 12 -> 1 <= d2 <= _days_in_month y m2 ->
  _days_before_month y m1 + d1 = _days_before_month y m2 + d2 ->
  m1 = m2 /\ d1 = d2.
Proof.
  intros H1 D1 H2 D2. unfold _days_in_month, _days_before_month in *.
  destruct (_is_leap y); month_cases m1; month_cases m2; tbl_eval; cmp_eval; lia.
Qed.

Lemma toordinal_bounds (d : date) :
  wf_date d ->
  _days_before_year (year d) < toordinal d <= _days_before_year (year d + 1).
Proof.
  intros (Hy & Hm & Hd). unfold toordinal, _ymd2ord.
  rewrite days_before_year_succ.
  pose proof (month_in_year _ _ _ Hm Hd). lia.
Qed.

(** Two calendar dates with the same ordinal are the same date. *)
Lemma toordinal_inj (d1 d2 : date) :
  wf_date d1 -> wf_date d2 -> toordinal d1 = toordinal d2 -> d1 = d2.
Proof.
  intros W1 W2 E.
  pose proof (toordinal_bounds _ W1) as B1.
  pose proof (toordinal_bounds _ W2) as B2.
  assert (Ey : year d1 = year d2).
  { destruct (Z.lt_trichotomy (year d1) (year d2)) as [L | [L | L]]; auto.
    - pose proof (days_before_year_mono (year d1 + 1) (year d2)). lia.
    - pose proof (days_before_year_mono (year d2 + 1) (year d1)). lia. }
  destruct d1 as [y1 m1 dd1], d2 as [y2 m2 dd2].
  destruct W1 as (_ & M1 & D1), W2 as (_ & M2 & D2).
  unfold toordinal, _ymd2ord in E. cbn [year month day] in *. subst y2.
  destruct (month_day_inj y1 m1 dd1 m2 dd2) as [-> ->]; auto. lia.
Qed.

Lemma toordinal_pos (d : date) : wf_date d -> 1 <= toordinal d.
Proof.
  intros W. pose proof (toordinal_bounds _ W) as B. destruct W as (Hy & _).
  pose proof (days_before_year_mono 1 (year d) Hy).
  change (_days_before_year 1) with 0 in *. lia.
Qed.

Lemma toordinal_max (d : date) :
  valid_date d = true -> 1 <= toordinal d <= _MAXORDINAL.
Proof.
  intros V. pose proof (valid_date_wf _ V) as W.
  split; [apply toordinal_pos; exact W|].
  pose proof (toordinal_bounds _ W) as B.
  assert (Hy : year d + 1 <= 10000).
  { unfold valid_date, MAXYEAR in V. rewrite !andb_true_iff, !Z.leb_le in V. lia. }
  pose proof (days_before_year_mono _ _ Hy).
  change (_days_before_year 10000) with _MAXORDINAL in *. lia.
Qed.

Lemma ord2ymd_wf (n : Z) : 1 <= n -> wf_date (_ord2ymd n).
Proof.
  intros H. pose proof (ord2ymd_spec n H) as S. cbv zeta in S.
  unfold wf_date. tauto.
Qed.

Lemma toordinal_ord2ymd (n : Z) : 1 <= n -> toordinal (_ord2ymd n) = n.
Proof. intros H. apply (ord2ymd_spec n H). Qed.

Lemma ord2ymd_valid (n : Z) :
  1 <= n <= _MAXORDINAL -> valid_date (_ord2ymd n) = true.
Proof.
  intros [H1 H2]. pose proof (ord2ymd_spec n H1) as S. cbv zeta in S.
  unfold valid_date, MINYEAR. rewrite !andb_true_iff, !Z.leb_le. lia.
Qed.

Lemma ord2ymd_toordinal (d : date) : wf_date d -> _ord2ymd (toordinal d) = d.
Proof.
  intros W. pose proof (toordinal_pos _ W) as P.
  apply toordinal_inj; auto using ord2ymd_wf, toordinal_ord2ymd.
Qed.

Lemma days_before_month_mono (y m1 m2 : Z) :
  1 <= m1 -> m1 < m2 -> m2 <= 12 ->
  _days_before_month y m1 + _days_in_month y m1 <= _days_before_month y m2.
Proof.
  intros H1 H H2. unfold _days_before_month, _days_in_month.
  destruct (_is_leap y); month_cases m1; month_cases m2; try lia;
    tbl_eval; cmp_eval; lia.
Qed.

(** The order of dates is the order of their ordinals. *)
Lemma date_leb_toordinal (a b : date) :
  wf_date a -> wf_date b ->
  date_leb a b = true <-> toordinal a <= toordinal b.
Proof.
  intros Wa Wb.
  pose proof (toordinal_bounds _ Wa) as Ba.
  pose proof (toordinal_bounds _ Wb) as Bb.
  destruct Wa as (Ya & Ma & Da), Wb as (Yb & Mb & Db).
  unfold date_leb.
  repeat (rewrite orb_true_iff || rewrite andb_true_iff).
  rewrite !Z.ltb_lt, !Z.eqb_eq, Z.leb_le.
  destruct (Z.lt_trichotomy (year a) (year b)) as [L | [E | L]].
  - pose proof (days_before_year_mono (year a + 1) (year b)). lia.
  - unfold toordinal, _ymd2ord in *. rewrite E in *.
    destruct (Z.lt_trichotomy (month a) (month b)) as [L | [E' | L]].
    + pose proof (days_before_month_mono (year b) (month a) (month b)). lia.
    + rewrite E' in *. lia.
    + pose proof (days_before_month_mono (year b) (month b) (month a)). lia.
  - pose proof (days_before_year_mono (year b + 1) (year a)). lia.
Qed.

(** ** The week and month windows *)

Lemma valid_datetime_date (t : datetime) :
  valid_datetime t = true -> valid_date (dt_date t) = true.
Proof.
  unfold valid_datetime. rewrite !andb_true_iff. tauto.
Qed.

Lemma date_add_days_ok (d : date) (k : Z) :
  1 <= toordinal d + k <= _MAXORDINAL ->
  date_add_days d k = Ok (_ord2ymd (toordinal d + k)).
Proof.
  intros H. unfold date_add_days. cbv zeta.
  replace (0 <? toordinal d + k) with true by (symmetry; apply Z.ltb_lt; lia).
  replace (toordinal d + k <=? _MAXORDINAL) with true
    by (symmetry; apply Z.leb_le; lia).
  reflexivity.
Qed.

Lemma date_add_days_overflow (d : date) (k : Z) :
  toordinal d + k < 1 \/ _MAXORDINAL < toordinal d + k ->
  date_add_days d k = Raise OverflowError.
Proof.
  intros H. unfold date_add_days. cbv zeta.
  destruct (0 <? toordinal d + k) eqn:A; [|reflexivity].
  destruct (toordinal d + k <=? _MAXORDINAL) eqn:B; [|reflexivity].
  apply Z.ltb_lt in A. apply Z.leb_le in B. lia.
Qed.

(** C2, as amended.  For every date [today] on or after 0001-01-06 the
    week window is [start = today - ((weekday(today) - 5) mod 7)] days and
    [end = start + 6] days: [start] is the most recent Saturday ([today]
    itself on a Saturday) and [end] the Friday after it.  Wednesday
    2026-01-07 gives 2026-01-03 and 2026-01-09. *)
Theorem week_window_spec (today : datetime) :
  valid_datetime today = true ->
  date_leb (mkdate 1 1 6) (dt_date today) = true ->
  exists start end_ : date,
    get_week_saturday_to_friday today = Ok (start, end_)
    /\ toordinal start
       = toordinal (dt_date today) - (weekday (dt_date today) - 5) mod 7
    /\ toordinal end_ = toordinal start + 6
    /\ weekday start = 5 /\ weekday end_ = 4
    /\ toordinal start <= toordinal (dt_date today) <= toordinal end_
    /\ date_leb start (dt_date today) = true
    /\ date_leb (dt_date today) end_ = true
    /\ (weekday (dt_date today) = 5 -> start = dt_date today)
    /\ valid_date start = true /\ valid_date end_ = true
    /\ weekday (mkdate 2026 1 7) = 2
    /\ get_week_saturday_to_friday (mkdatetime (mkdate 2026 1 7) 0)
       = Ok (mkdate 2026 1 3, mkdate 2026 1 9).
Proof.
  intros V Hge.
  pose proof (toordinal_max _ (valid_datetime_date _ V)) as [_ Hmax].
  pose proof (valid_date_wf _ (valid_datetime_date _ V)) as W.
  assert (H6 : 6 <= toordinal (dt_date today)).
  { apply (date_leb_toordinal (mkdate 1 1 6)) in Hge;
      [exact Hge | apply valid_date_wf; reflexivity | exact W]. }
  clear Hge.
  set (o := toordinal (dt_date today)) in *.
  set (delta := (weekday (dt_date today) - 5) mod 7).
  assert (Hd : delta = (o + 1) mod 7 /\ 0 <= delta <= 6).
  { subst delta. unfold weekday. fold o. zlia. }
  assert (Hs : 1 <= o - delta /\ o - delta + 6 <= _MAXORDINAL
               /\ (o - delta + 6) mod 7 = 5).
  { unfold _MAXORDINAL in *. destruct Hd as [-> _]. zlia. }
  exists (_ord2ymd (o - delta)), (_ord2ymd (o - delta + 6)).
  assert (Ts : toordinal (_ord2ymd (o - delta)) = o - delta)
    by (apply toordinal_ord2ymd; lia).
  assert (Te : toordinal (_ord2ymd (o - delta + 6)) = o - delta + 6)
    by (apply toordinal_ord2ymd; lia).
  repeat split.
  - unfold get_week_saturday_to_friday. cbv zeta. fold delta.
    unfold datetime_add_days.
    rewrite date_add_days_ok by (fold o; lia). cbn [bind dt_date].
    fold o. replace (o + - delta) with (o - delta) by lia.
    rewrite date_add_days_ok by (rewrite Ts; lia). cbn [bind].
    rewrite Ts. reflexivity.
  - exact Ts.
  - rewrite Te, Ts. reflexivity.
  - unfold weekday. rewrite Ts. apply Hs.
  - unfold weekday. rewrite Te. zlia.
  - rewrite Ts. lia.
  - rewrite Te. lia.
  - apply date_leb_toordinal; [apply ord2ymd_wf; lia | exact W |].
    rewrite Ts. fold o. lia.
  - apply date_leb_toordinal; [exact W | apply ord2ymd_wf; lia |].
    rewrite Te. fold o. lia.
  - intros Sat. assert (delta = 0) by (subst delta; rewrite Sat; reflexivity).
    replace (o - delta) with o by lia. apply ord2ymd_toordinal, W.
  - apply ord2ymd_valid. lia.
  - apply ord2ymd_valid. lia.
Qed.

Lemma week_window_spec_witness :
  valid_datetime (at_noon 2026 11 6) = true
  /\ date_leb (mkdate 1 1 6) (dt_date (at_noon 2026 11 6)) = true
  /\ exists start end_ : date,
       get_week_saturday_to_friday (at_noon 2026 11 6) = Ok (start, end_)
       /\ weekday start = 5 /\ weekday end_ = 4
       /\ toordinal end_ = toordinal start + 6.
Proof.
  assert (V : valid_datetime (at_noon 2026 11 6) = true) by reflexivity.
  assert (H : date_leb (mkdate 1 1 6) (dt_date (at_noon 2026 11 6)) = true)
    by reflexivity.
  split; [exact V | split; [exact H|]].
  destruct (week_window_spec (at_noon 2026 11 6) V H)
    as (s & e & G & _ & E & Ws & We & _).
  exists s, e. auto.
Defined.

(** C2 as stated fails in the first days of year 1: on Monday 0001-01-01
    the Saturday before is not a [date], and the subtraction raises. *)
Lemma week_window_year_one :
  valid_datetime (mkdatetime (mkdate 1 1 1) 0) = true
  /\ weekday (mkdate 1 1 1) = 0
  /\ get_week_saturday_to_friday (mkdatetime (mkdate 1 1 1) 0)
     = Raise OverflowError.
Proof. repeat split. Qed.

(** In the first five days of year 1 the week window always raises. *)
Lemma week_window_overflow (today : datetime) :
  valid_datetime today = true ->
  date_leb (mkdate 1 1 6) (dt_date today) = false ->
  get_week_saturday_to_friday today = Raise OverflowError.
Proof.
  intros V Hlt.
  pose proof (toordinal_max _ (valid_datetime_date _ V)) as [Hmin _].
  assert (H : toordinal (dt_date today) < 6).
  { destruct (Z.lt_ge_cases (toordinal (dt_date today)) 6) as [L | G];
      [exact L|].
    apply (date_leb_toordinal (mkdate 1 1 6)) in G;
      [congruence | apply valid_date_wf; reflexivity
       | apply valid_date_wf, valid_datetime_date, V]. }
  unfold get_week_saturday_to_friday. cbv zeta. unfold datetime_add_days.
  rewrite date_add_days_overflow; [reflexivity|].
  left. unfold weekday. zlia.
Qed.

Lemma first_of_month_plus_32 (y m : Z) :
  1 <= y -> 1 <= m <= 12 ->
  let '(y', m') := next_month_of y m in
  wf_date (mkdate y' m' (33 - _days_in_month y m))
  /\ toordinal (mkdate y' m' (33 - _days_in_month y m))
     = toordinal (mkdate y m 1) + 32
  /\ toordinal (mkdate y' m' 1) - 1
     = toordinal (mkdate y m (_days_in_month y m)).
Proof.
  intros Hy Hm. unfold next_month_of, wf_date, toordinal, _ymd2ord.
  cbn [year month day].
  pose proof (days_before_year_succ y) as S.
  unfold _days_in_month, _days_before_month.
  month_cases m; cmp_eval; tbl_eval;
    destruct (_is_leap y); cbn [andb]; try destruct (_is_leap (y + 1));
    tbl_eval; cmp_eval; lia.
Qed.

Lemma days_in_month_range (y m : Z) :
  1 <= m <= 12 -> 28 <= _days_in_month y m <= 31.
Proof.
  intros Hm. unfold _days_in_month.
  month_cases m; cmp_eval; tbl_eval; destruct (_is_leap y); cbn [andb];
    tbl_eval; lia.
Qed.

(** C3, as amended.  For every date [today] before December 9999 the
    month window is the first and the last day of the month of [today],
    whatever the length of the month, in leap years and in December
    (where the month after is in the next year).  2026-02-15 gives
    2026-02-28 and 2024-02-15 gives 2024-02-29. *)
Theorem month_window_spec (today : datetime) :
  valid_datetime today = true ->
  (year (dt_date today) = MAXYEAR -> month (dt_date today) <> 12) ->
  let y := year (dt_date today) in
  let m := month (dt_date today) in
  get_month_range today = Ok (mkdate y m 1, mkdate y m (_days_in_month y m))
  /\ valid_date (mkdate y m 1) = true
  /\ valid_date (mkdate y m (_days_in_month y m)) = true
  /\ (forall d : date, valid_date d = true -> year d = y -> month d = m ->
      day d <= _days_in_month y m)
  /\ get_month_range (mkdatetime (mkdate 2026 2 15) 0)
     = Ok (mkdate 2026 2 1, mkdate 2026 2 28)
  /\ get_month_range (mkdatetime (mkdate 2024 2 15) 0)
     = Ok (mkdate 2024 2 1, mkdate 2024 2 29)
  /\ get_month_range (mkdatetime (mkdate 2025 12 31) 0)
     = Ok (mkdate 2025 12 1, mkdate 2025 12 31).
Proof.
  intros V Hlast y m.
  pose proof (valid_datetime_date _ V) as Vd.
  pose proof (valid_date_wf _ Vd) as (Hy & Hm & Hd). fold y m in Hy, Hm, Hd.
  assert (Hy9 : y <= 9999).
  { unfold valid_date, MAXYEAR in Vd.
    rewrite !andb_true_iff, !Z.leb_le in Vd. subst y. lia. }
  pose proof (days_in_month_range y m Hm) as Hdim.
  pose proof (first_of_month_plus_32 y m Hy Hm) as N.
  destruct (next_month_of y m) as [y' m'] eqn:En.
  destruct N as (W' & O32 & Olast).
  assert (Wl : wf_date (mkdate y m (_days_in_month y m)))
    by (unfold wf_date; cbn [year month day]; lia).
  assert (Hy' : y' <= 9999).
  { unfold next_month_of in En. unfold MAXYEAR in Hlast. fold y m in Hlast.
    destruct (m =? 12) eqn:E; inversion En; subst;
      rewrite ?Z.eqb_eq, ?Z.eqb_neq in E; lia. }
  assert (V' : valid_date (mkdate y' m' (33 - _days_in_month y m)) = true).
  { destruct W' as (A & B & C). cbn [year month day] in *.
    unfold valid_date, MINYEAR, MAXYEAR. cbn [year month day].
    rewrite !andb_true_iff, !Z.leb_le. lia. }
  pose proof (toordinal_max _ V') as M32.
  pose proof (toordinal_pos _ Wl) as Pl.
  assert (Vl : valid_date (mkdate y m (_days_in_month y m)) = true).
  { unfold valid_date, MINYEAR, MAXYEAR. cbn [year month day].
    rewrite !andb_true_iff, !Z.leb_le. lia. }
  pose proof (toordinal_max _ Vl) as Ml.
  split; [|split; [|split; [|split; [|split; [|split]]]]].
  - unfold get_month_range. cbv zeta. unfold datetime_add_days, replace_day1.
    cbn [dt_date dt_time]. fold y m.
    rewrite date_add_days_ok by lia. cbn [bind dt_date dt_time].
    rewrite <- O32, (ord2ymd_toordinal _ W'). cbn [year month day].
    rewrite date_add_days_ok
      by (replace (toordinal (mkdate y' m' 1) + -1)
            with (toordinal (mkdate y' m' 1) - 1) by lia; lia).
    cbn [bind dt_date].
    replace (toordinal (mkdate y' m' 1) + -1)
      with (toordinal (mkdate y m (_days_in_month y m))) by lia.
    rewrite (ord2ymd_toordinal _ Wl). reflexivity.
  - unfold valid_date, MINYEAR, MAXYEAR. cbn [year month day].
    rewrite !andb_true_iff, !Z.leb_le. lia.
  - exact Vl.
  - intros d Vd' Ey Em. apply valid_date_wf in Vd'.
    destruct Vd' as (_ & _ & D). rewrite Ey, Em in D. lia.
  - reflexivity.
  - reflexivity.
  - reflexivity.
Qed.

Lemma month_window_spec_witness :
  valid_datetime (at_noon 2023 12 25) = true
  /\ (year (dt_date (at_noon 2023 12 25)) = MAXYEAR ->
      month (dt_date (at_noon 2023 12 25)) <> 12)
  /\ get_month_range (at_noon 2023 12 25)
     = Ok (mkdate 2023 12 1, mkdate 2023 12 31).
Proof.
  assert (V : valid_datetime (at_noon 2023 12 25) = true) by reflexivity.
  assert (H : year (dt_date (at_noon 2023 12 25)) = MAXYEAR ->
              month (dt_date (at_noon 2023 12 25)) <> 12)
    by (intros E; vm_compute in E; discriminate E).
  split; [exact V | split; [exact H|]].
  exact (proj1 (month_window_spec (at_noon 2023 12 25) V H)).
Defined.

(** C3 as stated fails in December 9999: 32 days after the first of the
    month is past the last [date]. *)
Lemma month_window_last_december :
  valid_datetime (mkdatetime (mkdate 9999 12 15) 0) = true
  /\ get_month_range (mkdatetime (mkdate 9999 12 15) 0)
     = Raise OverflowError.
Proof. split; reflexivity. Qed.

(** In December 9999 the month window always raises. *)
Lemma month_window_overflow (today : datetime) :
  valid_datetime today = true ->
  year (dt_date today) = MAXYEAR -> month (dt_date today) = 12 ->
  get_month_range today = Raise OverflowError.
Proof.
  intros V Hy Hm.
  unfold get_month_range. cbv zeta. unfold datetime_add_days, replace_day1.
  cbn [dt_date dt_time]. rewrite Hy, Hm.
  reflexivity.
Qed.

(** ** The running total of a user *)


Lemma NoDup_by_nodup (l : list Z) : nodup Z.eq_dec l = l -> NoDup l.
Proof. intros <-. apply NoDup_nodup. Qed.

Lemma sum_Z_app (xs ys : list Z) : sum_Z (xs ++ ys) = sum_Z xs + sum_Z ys.
Proof.
  unfold sum_Z. induction xs as [|x xs IH]; cbn; [reflexivity | rewrite IH; lia].
Qed.

Lemma next_id_fresh (ids : list Z) : ~ In (next_id ids) ids.
Proof.
  assert (B : forall x, In x ids -> x <= fold_right Z.max 0 ids).
  { induction ids as [|i ids IH]; cbn; [tauto|].
    intros x [-> | H]; [lia | specialize (IH x H); lia]. }
  intros H. apply B in H. unfold next_id in H. lia.
Qed.

Lemma user_by_telegram_In (tid : Z) (db : DB) (u : User.t) :
  user_by_telegram tid db = Some u -> In u (users db).
Proof. unfold user_by_telegram. intros H. apply find_some in H. tauto. Qed.

Lemma update_user_ids (i : Z) (f : User.t -> User.t) (us : list User.t) :
  (forall u, User.id (f u) = User.id u) ->
  map User.id (update_user i f us) = map User.id us.
Proof.
  intros Hf. unfold update_user. rewrite map_map. apply map_ext.
  intros u. destruct (User.id u =? i); auto.
Qed.

Lemma update_user_In (i : Z) (f : User.t -> User.t) (us : list User.t)
    (u' : User.t) :
  In u' (update_user i f us) ->
  exists u, In u us /\ u' = if User.id u =? i then f u else u.
Proof.
  unfold update_user. rewrite in_map_iff. intros (u & E & H). eauto.
Qed.

Lemma NoDup_id_eq {A} (key : A -> Z) (l : list A) (x y : A) :
  NoDup (map key l) -> In x l -> In y l -> key x = key y -> x = y.
Proof.
  induction l as [|a l IH]; cbn; [tauto|].
  intros N Hx Hy E. inversion N as [|? ? Na Nl]; subst.
  destruct Hx as [-> | Hx], Hy as [-> | Hy]; auto.
  - exfalso. apply Na. rewrite E. apply in_map. exact Hy.
  - exfalso. apply Na. rewrite <- E. apply in_map. exact Hx.
Qed.

Lemma log_pages_of_app (uid : Z) (ls ls' : list ReadingLog.t) :
  log_pages_of uid (ls ++ ls') = log_pages_of uid ls + log_pages_of uid ls'.
Proof. unfold log_pages_of. rewrite filter_app, map_app. apply sum_Z_app. Qed.

Lemma set_pages_other (log : ReadingLog.t) (v : Z) (ls : list ReadingLog.t) :
  ~ In (ReadingLog.id log) (map ReadingLog.id ls) ->
  map (fun l => if ReadingLog.id l =? ReadingLog.id log
                then ReadingLog.set_pages v l else l) ls = ls.
Proof.
  induction ls as [|l ls IH]; cbn; [reflexivity|].
  intros H. rewrite IH by tauto.
  destruct (ReadingLog.id l =? ReadingLog.id log) eqn:E; [|reflexivity].
  apply Z.eqb_eq in E. exfalso. apply H. left. exact E.
Qed.

Lemma log_pages_of_set (uid v : Z) (log : ReadingLog.t)
    (ls : list ReadingLog.t) :
  NoDup (map ReadingLog.id ls) -> In log ls ->
  log_pages_of uid
    (map (fun l => if ReadingLog.id l =? ReadingLog.id log
                   then ReadingLog.set_pages v l else l) ls)
  = log_pages_of uid ls
    + (if ReadingLog.user_id log =? uid then v - ReadingLog.pages log else 0).
Proof.
  induction ls as [|l ls IH]; cbn [map In]; [tauto|].
  intros N H. inversion N as [|? ? Nl Nt]; subst.
  change (l :: ls) with ([l] ++ ls).
  change (?x :: map ?f ls) with ([x] ++ map f ls).
  rewrite !log_pages_of_app.
  destruct H as [-> | H].
  - rewrite Z.eqb_refl, set_pages_other by exact Nl.
    unfold log_pages_of. cbn.
    destruct (ReadingLog.user_id log =? uid); cbn; lia.
  - assert (E : (ReadingLog.id l =? ReadingLog.id log) = false).
    { apply Z.eqb_neq. intros E. apply Nl. rewrite E. apply in_map, H. }
    rewrite E, IH by assumption. lia.
Qed.

Lemma delete_other (log : ReadingLog.t) (ls : list ReadingLog.t) :
  ~ In (ReadingLog.id log) (map ReadingLog.id ls) ->
  filter (fun l => negb (ReadingLog.id l =? ReadingLog.id log)) ls = ls.
Proof.
  induction ls as [|l ls IH]; cbn; [reflexivity|].
  intros H. rewrite IH by tauto.
  destruct (ReadingLog.id l =? ReadingLog.id log) eqn:E; [|reflexivity].
  apply Z.eqb_eq in E. exfalso. apply H. left. exact E.
Qed.

Lemma log_pages_of_delete (uid : Z) (log : ReadingLog.t)
    (ls : list ReadingLog.t) :
  NoDup (map ReadingLog.id ls) -> In log ls ->
  log_pages_of uid
    (filter (fun l => negb (ReadingLog.id l =? ReadingLog.id log)) ls)
  = log_pages_of uid ls
    - (if ReadingLog.user_id log =? uid then ReadingLog.pages log else 0).
Proof.
  induction ls as [|l ls IH]; cbn [map In]; [tauto|].
  intros N H. inversion N as [|? ? Nl Nt]; subst.
  cbn [filter].
  destruct H as [-> | H].
  - rewrite Z.eqb_refl. cbn [negb]. rewrite delete_other by exact Nl.
    change (log :: ls) with ([log] ++ ls). rewrite log_pages_of_app.
    unfold log_pages_of. cbn.
    destruct (ReadingLog.user_id log =? uid); cbn; lia.
  - assert (E : (ReadingLog.id l =? ReadingLog.id log) = false).
    { apply Z.eqb_neq. intros E. apply Nl. rewrite E. apply in_map, H. }
    rewrite E. cbn [negb].
    change (l :: ?t) with ([l] ++ t).
    rewrite !log_pages_of_app, IH by assumption. lia.
Qed.

Lemma filter_ids_NoDup {A} (key : A -> Z) (p : A -> bool) (l : list A) :
  NoDup (map key l) -> NoDup (map key (filter p l)).
Proof.
  induction l as [|a l IH]; cbn; [auto|].
  intros N. inversion N as [|? ? Na Nl]; subst.
  destruct (p a); cbn; auto. constructor; auto.
  intros H. apply Na. rewrite in_map_iff in *.
  destruct H as (x & E & Hx). apply filter_In in Hx. exists x. tauto.
Qed.

Lemma filter_none {A} (p : A -> bool) (l : list A) :
  (forall x, In x l -> p x = false) -> filter p l = [].
Proof.
  induction l as [|a l IH]; cbn; [reflexivity|].
  intros H. rewrite (H a) by auto. apply IH. auto.
Qed.

Lemma log_by_date_In (uid : Z) (d : date) (db : DB) (log : ReadingLog.t) :
  log_by_date uid d db = Some log ->
  In log (reading_logs db) /\ ReadingLog.user_id log = uid.
Proof.
  unfold log_by_date. intros H. apply find_some in H as [I P].
  apply andb_true_iff in P as [P _]. apply Z.eqb_eq in P. auto.
Qed.

Lemma store_ok_create_user (user : UserCreate.t) (clk : Clock) (db : DB) :
  store_ok db -> store_ok (commit db (create_user user clk db)).
Proof.
  intros Ok0. unfold create_user.
  destruct (user_by_telegram _ db) as [existing|]; cbn [commit]; [exact Ok0|].
  destruct Ok0 as ((Nu & Nl & Fk) & T).
  pose proof (next_id_fresh (map User.id (users db))) as Fresh.
  split; [split; [|split]|]; cbn [users reading_logs].
  - rewrite map_app. cbn [map User.id].
    apply NoDup_app; [exact Nu | repeat constructor; cbn; tauto |].
    intros x Hx [<- | []]. exact (Fresh Hx).
  - exact Nl.
  - intros l Hl. rewrite map_app. apply in_or_app. left. auto.
  - intros u Hu. cbn [users reading_logs] in *.
    apply in_app_or in Hu as [Hu | [<- | []]]; [auto|].
    cbn [User.total_pages User.id]. unfold log_pages_of.
    rewrite filter_none; [reflexivity|].
    intros l Hl. apply Z.eqb_neq. intros E. apply Fresh. rewrite <- E. auto.
Qed.

Lemma store_ok_create_log (log : ReadingLogCreate.t) (tid : Z) (clk : Clock)
    (db : DB) :
  store_ok db -> store_ok (commit db (create_reading_log log tid clk db)).
Proof.
  intros Ok0. unfold create_reading_log.
  destruct (user_by_telegram tid db) as [user|] eqn:Eu; cbn [commit];
    [|exact Ok0].
  apply user_by_telegram_In in Eu.
  destruct Ok0 as ((Nu & Nl & Fk) & T).
  pose proof (next_id_fresh (map ReadingLog.id (reading_logs db))) as Fresh.
  assert (Ids : map User.id
                  (update_user (User.id user)
                     (fun u => User.set_last_active (utcnow clk)
                        (User.set_total_pages
                           (User.total_pages user + ReadingLogCreate.pages log)
                           u)) (users db))
                = map User.id (users db))
    by (apply update_user_ids; reflexivity).
  split; [split; [|split]|]; cbn [users reading_logs].
  - rewrite Ids. exact Nu.
  - rewrite map_app. cbn [map ReadingLog.id].
    apply NoDup_app; [exact Nl | repeat constructor; cbn; tauto |].
    intros x Hx [<- | []]. exact (Fresh Hx).
  - rewrite Ids. intros l Hl. apply in_app_or in Hl as [Hl | [<- | []]];
      [auto|]. cbn [ReadingLog.user_id]. apply in_map, Eu.
  - intros u' Hu'. cbn [users reading_logs] in *.
    apply update_user_In in Hu' as (u & Hu & ->).
    rewrite log_pages_of_app.
    unfold log_pages_of at 2. cbn [filter map ReadingLog.user_id].
    destruct (User.id u =? User.id user) eqn:E.
    + apply Z.eqb_eq in E.
      assert (u = user) by (eapply NoDup_id_eq; eauto). subst u.
      cbn [User.id User.set_last_active User.set_total_pages User.total_pages].
      rewrite Z.eqb_refl. cbn. rewrite (T user Hu). lia.
    + rewrite Z.eqb_sym, E. cbn. rewrite (T u Hu). lia.
Qed.

Section Preservation.
Variable strptime : string -> string -> option datetime.

Lemma store_ok_update_log (date : string) (pages tid : Z) (db : DB) :
  store_ok db ->
  store_ok (commit db (update_reading_log strptime date pages tid db)).
Proof.
  intros Ok0. unfold update_reading_log.
  destruct (user_by_telegram tid db) as [user|] eqn:Eu; cbn [commit];
    [|exact Ok0].
  destruct (strptime date "%Y-%m-%d") as [parsed|]; cbn [commit]; [|exact Ok0].
  destruct (log_by_date _ _ db) as [log|] eqn:El; cbn [commit]; [|exact Ok0].
  apply user_by_telegram_In in Eu. apply log_by_date_In in El as [Il Ul].
  destruct Ok0 as ((Nu & Nl & Fk) & T).
  assert (Ids : forall v,
             map User.id (update_user (User.id user) (User.set_total_pages v)
                            (users db)) = map User.id (users db))
    by (intros v; apply update_user_ids; reflexivity).
  split; [split; [|split]|]; cbn [users reading_logs].
  - rewrite Ids. exact Nu.
  - rewrite map_map.
    erewrite map_ext; [exact Nl|]. intros l. cbn.
    destruct (ReadingLog.id l =? ReadingLog.id log); reflexivity.
  - rewrite Ids. intros l Hl. apply in_map_iff in Hl as (l0 & <- & Hl0).
    destruct (ReadingLog.id l0 =? ReadingLog.id log); cbn; auto.
  - intros u' Hu'. cbn [users reading_logs] in *.
    apply update_user_In in Hu' as (u & Hu & ->).
    rewrite log_pages_of_set by assumption. rewrite Ul.
    destruct (User.id u =? User.id user) eqn:E.
    + apply Z.eqb_eq in E.
      assert (u = user) by (eapply NoDup_id_eq; eauto). subst u.
      cbn [User.id User.set_total_pages User.total_pages].
      rewrite Z.eqb_refl. rewrite (T user Hu). lia.
    + rewrite Z.eqb_sym, E. rewrite (T u Hu). lia.
Qed.

Lemma store_ok_delete_log (date : string) (tid : Z) (db : DB) :
  store_ok db ->
  store_ok (commit db (delete_reading_log strptime date tid db)).
Proof.
  intros Ok0. unfold delete_reading_log.
  destruct (user_by_telegram tid db) as [user|] eqn:Eu; cbn [commit];
    [|exact Ok0].
  destruct (strptime date "%Y-%m-%d") as [parsed|]; cbn [commit]; [|exact Ok0].
  destruct (log_by_date _ _ db) as [log|] eqn:El; cbn [commit]; [|exact Ok0].
  apply user_by_telegram_In in Eu. apply log_by_date_In in El as [Il Ul].
  destruct Ok0 as ((Nu & Nl & Fk) & T).
  assert (Ids : forall v,
             map User.id (update_user (User.id user) (User.set_total_pages v)
                            (users db)) = map User.id (users db))
    by (intros v; apply update_user_ids; reflexivity).
  split; [split; [|split]|]; cbn [users reading_logs].
  - rewrite Ids. exact Nu.
  - apply filter_ids_NoDup, Nl.
  - rewrite Ids. intros l Hl. apply filter_In in Hl as [Hl _]. auto.
  - intros u' Hu'. cbn [users reading_logs] in *.
    apply update_user_In in Hu' as (u & Hu & ->).
    rewrite log_pages_of_delete by assumption. rewrite Ul.
    destruct (User.id u =? User.id user) eqn:E.
    + apply Z.eqb_eq in E.
      assert (u = user) by (eapply NoDup_id_eq; eauto). subst u.
      cbn [User.id User.set_total_pages User.total_pages].
      rewrite Z.eqb_refl. rewrite (T user Hu). lia.
    + rewrite Z.eqb_sym, E. rewrite (T u Hu). lia.
Qed.

Lemma store_ok_serve (clk : Clock) (r : request) (db : DB) :
  store_ok db -> store_ok (serve strptime clk r db).
Proof.
  destruct r; cbn [serve];
    auto using store_ok_create_user, store_ok_create_log,
               store_ok_update_log, store_ok_delete_log.
Qed.

Lemma store_ok_serve_all (rs : list (Clock * request)) (db : DB) :
  store_ok db -> store_ok (serve_all strptime rs db).
Proof.
  revert db. induction rs as [|[clk r] rs IH]; cbn [serve_all]; intros db H;
    [exact H|]. apply IH, store_ok_serve, H.
Qed.

End Preservation.

Lemma store_ok_empty : store_ok empty_db.
Proof.
  split; [split; [|split]|]; cbn; try constructor; intros ? [].
Qed.

(** C1.  After any sequence of create, edit and delete requests on
    reading logs (for any users, failed requests included), every user's
    [total_pages] is the sum of the pages of that user's remaining logs.
    The sequence starts from a store that satisfies its key constraints
    and the invariant; the empty store is one. *)
Theorem total_pages_invariant
    (strptime : string -> string -> option datetime)
    (rs : list (Clock * request)) (db : DB) :
  integrity db -> totals_consistent db ->
  (forall u, In u (users (serve_all strptime rs db)) ->
     User.total_pages u
     = sum_Z (map ReadingLog.pages
                (filter (fun l => ReadingLog.user_id l =? User.id u)
                        (reading_logs (serve_all strptime rs db)))))
  /\ integrity (serve_all strptime rs db)
  /\ totals_consistent (serve_all strptime rs empty_db).
Proof.
  intros K T.
  destruct (store_ok_serve_all strptime rs db (conj K T)) as [K' T'].
  split; [exact T' | split; [exact K'|]].
  apply (store_ok_serve_all strptime rs empty_db store_ok_empty).
Qed.

Lemma db_abc_integrity : integrity db_abc.
Proof.
  split; [|split]; try (apply NoDup_by_nodup; reflexivity).
  intros l Hl. cbn in Hl.
  repeat (destruct Hl as [<- | Hl]; [cbn; tauto|]). destruct Hl.
Qed.

Lemma db_abc_totals : totals_consistent db_abc.
Proof.
  intros u Hu. cbn in Hu.
  repeat (destruct Hu as [<- | Hu]; [reflexivity|]). destruct Hu.
Qed.

Lemma total_pages_invariant_witness :
  integrity db_abc /\ totals_consistent db_abc
  /\ map (fun u => (User.first_name u, User.total_pages u))
         (users (serve_all AsciiRuntime.strptime requests_abc db_abc))
     = [("A", 160); ("B", 150); ("C", 50); ("D", 0)]
  /\ forall u,
       In u (users (serve_all AsciiRuntime.strptime requests_abc db_abc)) ->
       User.total_pages u
       = sum_Z (map ReadingLog.pages
                  (filter (fun l => ReadingLog.user_id l =? User.id u)
                     (reading_logs
                        (serve_all AsciiRuntime.strptime requests_abc
                                   db_abc)))).
Proof.
  split; [exact db_abc_integrity | split; [exact db_abc_totals|]].
  split; [reflexivity|].
  exact (proj1 (total_pages_invariant AsciiRuntime.strptime requests_abc
                  db_abc db_abc_integrity db_abc_totals)).
Defined.

(** ** Ordering, ranks and the grouped query *)


Section Ordering.
Context {A : Type} (before : A -> A -> bool).

Lemma insert_by_perm (x : A) (l : list A) :
  Permutation (insert_by before x l) (x :: l).
Proof.
  induction l as [|y l IH]; cbn; [reflexivity|].
  destruct (before x y); [reflexivity|].
  rewrite IH. apply perm_swap.
Qed.

Lemma order_by_perm (l : list A) : Permutation (order_by before l) l.
Proof.
  unfold order_by. induction l as [|x l IH]; cbn; [reflexivity|].
  rewrite insert_by_perm. constructor. exact IH.
Qed.

Lemma order_by_In (l : list A) (x : A) : In x (order_by before l) <-> In x l.
Proof.
  split; apply Permutation_in; [|symmetry]; apply order_by_perm.
Qed.

Lemma order_by_length (l : list A) :
  List.length (order_by before l) = List.length l.
Proof. apply Permutation_length, order_by_perm. Qed.

End Ordering.

Section Descending.
Context {A : Type} (key : A -> Z).




End Descending.

Lemma firstn_In {A} (n : nat) (l : list A) (x : A) :
  In x (firstn n l) -> In x l.
Proof.
  revert n. induction l as [|y l IH]; intros [|n]; cbn; try tauto.
  intros [-> | H]; eauto.
Qed.




Lemma enumerate_from_snd {A} (start : Z) (l : list A) :
  map snd (enumerate_from start l) = l.
Proof.
  revert start. induction l as [|x l IH]; intros start; cbn;
    [reflexivity | rewrite IH; reflexivity].
Qed.








Lemma filter_filter {A} (p q : A -> bool) (l : list A) :
  filter p (filter q l) = filter (fun x => q x && p x) l.
Proof.
  induction l as [|x l IH]; cbn; [reflexivity|].
  destruct (q x); cbn; [destruct (p x)|]; rewrite IH; reflexivity.
Qed.

Lemma filter_flat_map {A B} (p : B -> bool) (f : A -> list B) (l : list A) :
  filter p (flat_map f l) = flat_map (fun a => filter p (f a)) l.
Proof.
  induction l as [|a l IH]; cbn; [reflexivity|].
  rewrite filter_app, IH. reflexivity.
Qed.

Lemma filter_all {A} (p : A -> bool) (l : list A) :
  (forall x, In x l -> p x = true) -> filter p l = l.
Proof.
  induction l as [|a l IH]; cbn; [reflexivity|].
  intros H. rewrite (H a) by auto. f_equal. apply IH. auto.
Qed.


Lemma nodup_block (k : Z) (l1 l2 : list Z) :
  l1 <> [] -> (forall x, In x l1 -> x = k) -> ~ In k l2 ->
  nodup Z.eq_dec (l1 ++ l2) = k :: nodup Z.eq_dec l2.
Proof.
  induction l1 as [|x l1 IH]; [congruence|].
  intros _ Hall Hk. assert (x = k) by (apply Hall; left; reflexivity). subst x.
  cbn [app nodup]. destruct l1 as [|y l1].
  - cbn [app]. destruct (in_dec Z.eq_dec k l2); [contradiction | reflexivity].
  - destruct (in_dec Z.eq_dec k ((y :: l1) ++ l2)) as [_ | N].
    + apply IH; [discriminate | intros z Hz; apply Hall; right; exact Hz
                 | exact Hk].
    + exfalso. apply N. left. apply Hall. right. left. reflexivity.
Qed.

Lemma rows_of_key (wl : User.t -> list ReadingLog.t) (us : list User.t)
    (r : User.t * ReadingLog.t) :
  In r (rows_of wl us) -> In (User.id (fst r)) (map User.id us).
Proof.
  unfold rows_of. rewrite in_flat_map. intros (u & Hu & Hr).
  apply in_map_iff in Hr as (l & <- & _). cbn. apply in_map, Hu.
Qed.

Lemma group_by_user_rows_of (wl : User.t -> list ReadingLog.t)
    (us : list User.t) :
  NoDup (map User.id us) ->
  flat_map aggregate (group_by_user (rows_of wl us))
  = flat_map (fun u => aggregate (map (pair u) (wl u))) us.
Proof.
  induction us as [|u us IH]; [reflexivity|].
  intros N. inversion N as [|? ? Nu Nt]; subst.
  change (rows_of wl (u :: us)) with (map (pair u) (wl u) ++ rows_of wl us).
  cbn [flat_map]. rewrite <- (IH Nt).
  destruct (wl u) as [|l0 ls] eqn:E; [reflexivity|].
  set (A := map (pair u) (l0 :: ls)).
  assert (KA : forall r, In r A -> User.id (fst r) = User.id u).
  { intros r Hr. apply in_map_iff in Hr as (l & <- & _). reflexivity. }
  assert (KB : forall r, In r (rows_of wl us) -> User.id (fst r) <> User.id u).
  { intros r Hr Er. apply rows_of_key in Hr. rewrite Er in Hr. auto. }
  unfold group_by_user at 1. rewrite map_app.
  rewrite (nodup_block (User.id u)).
  - cbn [map flat_map]. f_equal.
    + rewrite filter_app, filter_all, filter_none, app_nil_r; [reflexivity | |].
      * intros r Hr. apply Z.eqb_neq, KB, Hr.
      * intros r Hr. apply Z.eqb_eq, KA, Hr.
    + unfold group_by_user. f_equal. apply map_ext_in. intros k Hk.
      rewrite filter_app, (filter_none _ A); [reflexivity|].
      intros r Hr. apply Z.eqb_neq. rewrite (KA r Hr). intros <-.
      apply nodup_In, in_map_iff in Hk as (r' & Er' & Hr').
      exact (KB r' Hr' Er').
  - discriminate.
  - intros x Hx. apply in_map_iff in Hx as (r & <- & Hr). apply KA, Hr.
  - intros Hin. apply in_map_iff in Hin as (r & Er & Hr). exact (KB r Hr Er).
Qed.

Lemma filter_join_logs (w : option (date * date)) (db : DB) :
  filter (fun r => in_window w (snd r)) (join_logs db)
  = rows_of (window_logs w db) (users db).
Proof.
  unfold join_logs, rows_of. rewrite filter_flat_map.
  apply flat_map_ext. intros u. rewrite filter_map_swap. reflexivity.
Qed.

Lemma ranked_rows_by_user (w : option (date * date)) (db : DB) :
  NoDup (map User.id (users db)) ->
  ranked_rows w db
  = order_by_desc (fun r => snd (fst r))
      (flat_map (fun u => aggregate (map (pair u) (window_logs w db u)))
                (users db)).
Proof.
  intros N. unfold ranked_rows.
  rewrite filter_join_logs, group_by_user_rows_of by exact N. reflexivity.
Qed.

Lemma aggregate_user (u : User.t) (ls : list ReadingLog.t)
    (row : string * Z * Z) :
  In row (aggregate (map (pair u) ls)) <->
  ls <> [] /\ row = (User.first_name u, sum_Z (map ReadingLog.pages ls),
                     User.books_completed u).
Proof.
  destruct ls as [|l ls]; cbn [map aggregate].
  - split; [intros [] | intros [H _]; congruence].
  - rewrite map_map. cbn [snd In]. split.
    + intros [<- | []]. split; [discriminate | reflexivity].
    + intros [_ ->]. left. reflexivity.
Qed.

Lemma window_logs_pages (db : DB) (u : User.t) (s e : date) :
  sum_Z (map ReadingLog.pages (window_logs (Some (s, e)) db u))
  = windowed_pages db u s e.
Proof.
  unfold window_logs, windowed_pages. rewrite filter_filter. reflexivity.
Qed.

Lemma window_logs_nonempty (db : DB) (u : User.t) (s e : date) :
  window_logs (Some (s, e)) db u <> [] <-> reads_in_window db u s e = true.
Proof.
  unfold window_logs, reads_in_window. rewrite filter_filter.
  cbn [in_window].
  induction (reading_logs db) as [|l ls IH]; cbn [filter existsb].
  - split; [congruence | discriminate].
  - destruct ((ReadingLog.user_id l =? User.id u) && _) eqn:P; cbn [orb].
    + split; [reflexivity | discriminate].
    + exact IH.
Qed.

(** C4.  Every entry of the weekly report is a user with a log in the
    Saturday-to-Friday window of the day, and every such user has an
    entry; the entry carries the sum of the user's pages in the window,
    and its winner flag is set exactly when that sum is at least 500: it
    is set at 500 and not at 499. *)
Theorem weekly_report_winner (clk : Clock) (db : DB)
    (report : list WeeklyEntry.t) :
  NoDup (map User.id (users db)) ->
  weekly_report clk db = Ok report ->
  exists start_date end_date : date,
    get_week_saturday_to_friday (now clk) = Ok (start_date, end_date)
    /\ (forall e, In e report ->
          exists u, In u (users db)
            /\ reads_in_window db u start_date end_date = true
            /\ WeeklyEntry.name e = User.first_name u
            /\ WeeklyEntry.pages e = windowed_pages db u start_date end_date
            /\ (WeeklyEntry.winner e = true
                <-> 500 <= windowed_pages db u start_date end_date))
    /\ (forall u, In u (users db) ->
          reads_in_window db u start_date end_date = true ->
          exists e, In e report
            /\ WeeklyEntry.name e = User.first_name u
            /\ WeeklyEntry.pages e = windowed_pages db u start_date end_date
            /\ (WeeklyEntry.winner e = true
                <-> 500 <= windowed_pages db u start_date end_date))
    /\ (forall e, In e report ->
          (WeeklyEntry.pages e = 500 -> WeeklyEntry.winner e = true)
          /\ (WeeklyEntry.pages e = 499 -> WeeklyEntry.winner e = false))
    /\ weekly_report wednesday db_week
       = Ok [WeeklyEntry.mk 1 "Ali" 500 true;
             WeeklyEntry.mk 2 "Vali" 499 false].
Proof.
  intros N H. unfold weekly_report in H. cbv zeta in H.
  destruct (get_week_saturday_to_friday (now clk)) as [[s e]|x];
    cbn [bind] in H; [|discriminate].
  injection H as <-. exists s, e. split; [reflexivity|].
  rewrite ranked_rows_by_user by exact N.
  set (rows := order_by_desc _ _).
  set (mk := fun '(idx, (name, pages, _)) =>
               WeeklyEntry.mk idx name pages (500 <=? pages)).
  assert (Rows : forall row, In row rows <->
             exists u, In u (users db)
               /\ reads_in_window db u s e = true
               /\ row = (User.first_name u, windowed_pages db u s e,
                         User.books_completed u)).
  { intros row. subst rows. unfold order_by_desc. rewrite order_by_In.
    rewrite in_flat_map. split.
    - intros (u & Hu & Hr). apply aggregate_user in Hr as [Ne ->].
      exists u. rewrite <- window_logs_nonempty, <- window_logs_pages. auto.
    - intros (u & Hu & Rd & ->). exists u. split; [exact Hu|].
      apply aggregate_user. rewrite window_logs_nonempty, window_logs_pages.
      auto. }
  assert (Entry : forall idx u,
             WeeklyEntry.name
               (mk (idx, (User.first_name u, windowed_pages db u s e,
                          User.books_completed u))) = User.first_name u
             /\ WeeklyEntry.pages
                  (mk (idx, (User.first_name u, windowed_pages db u s e,
                             User.books_completed u)))
                = windowed_pages db u s e
             /\ (WeeklyEntry.winner
                   (mk (idx, (User.first_name u, windowed_pages db u s e,
                              User.books_completed u))) = true
                 <-> 500 <= windowed_pages db u s e)).
  { intros idx u. cbn. rewrite Z.leb_le. tauto. }
  split; [|split; [|split; [|reflexivity]]].
  - intros x Hx. apply in_map_iff in Hx as ([idx row] & <- & Hx).
    apply (in_map snd) in Hx. rewrite enumerate_from_snd in Hx. cbn in Hx.
    apply Rows in Hx as (u & Hu & Rd & ->). exists u.
    split; [exact Hu | split; [exact Rd | apply Entry]].
  - intros u Hu Rd.
    assert (Hr : In (User.first_name u, windowed_pages db u s e,
                     User.books_completed u) rows)
      by (apply Rows; eauto).
    rewrite <- (enumerate_from_snd 1 rows) in Hr.
    apply in_map_iff in Hr as ([idx row] & Er & Hr). cbn in Er. subst row.
    eexists. split; [apply in_map, Hr | apply Entry].
  - intros x Hx. apply in_map_iff in Hx as ([idx [[name pages] books]] & <- & _).
    cbn. split; intros ->; reflexivity.
Qed.

Lemma weekly_report_winner_witness :
  NoDup (map User.id (users db_week))
  /\ weekly_report wednesday db_week
     = Ok [WeeklyEntry.mk 1 "Ali" 500 true; WeeklyEntry.mk 2 "Vali" 499 false]
  /\ exists start_date end_date : date,
       get_week_saturday_to_friday (now wednesday)
       = Ok (start_date, end_date)
       /\ forall e,
            In e [WeeklyEntry.mk 1 "Ali" 500 true;
                  WeeklyEntry.mk 2 "Vali" 499 false] ->
            exists u, In u (users db_week)
              /\ WeeklyEntry.pages e
                 = windowed_pages db_week u start_date end_date
              /\ (WeeklyEntry.winner e = true
                  <-> 500 <= windowed_pages db_week u start_date end_date).
Proof.
  assert (N : NoDup (map User.id (users db_week)))
    by (apply NoDup_by_nodup; reflexivity).
  assert (H : weekly_report wednesday db_week
              = Ok [WeeklyEntry.mk 1 "Ali" 500 true;
                    WeeklyEntry.mk 2 "Vali" 499 false]) by reflexivity.
  split; [exact N | split; [exact H|]].
  destruct (weekly_report_winner wednesday db_week _ N H)
    as (s & e & G & In1 & _).
  exists s, e. split; [exact G|].
  intros x Hx. destruct (In1 x Hx) as (u & Hu & _ & _ & P & W).
  exists u. auto.
Defined.

(** ** The announcement job *)

Lemma sql_limit_In {A} (n : Z) (l : list A) (x : A) :
  In x (sql_limit n l) -> In x l.
Proof.
  unfold sql_limit. destruct (n <? 0); [auto | apply firstn_In].
Qed.

Lemma list_announcements_In (db : DB) (r : AnnouncementOut.t) :
  In r (list_announcements db) ->
  exists a, In a (announcements db) /\ r = announcement_out a.
Proof.
  unfold list_announcements. cbv zeta. rewrite in_map_iff.
  intros (a & <- & Ha). apply sql_limit_In, order_by_In in Ha. eauto.
Qed.

Lemma mark_sent_ids (i : Z) (clk : Clock) (db : DB) :
  map Announcement.id
      (announcements (commit db (mark_announcement_sent i clk db)))
  = map Announcement.id (announcements db).
Proof.
  unfold mark_announcement_sent.
  destruct (find _ _) as [ann|]; cbn [commit announcements]; [|reflexivity].
  rewrite map_map. apply map_ext. intros a.
  destruct (Announcement.id a =? Announcement.id ann); reflexivity.
Qed.

Lemma mark_sent_keeps (i j : Z) (clk : Clock) (db : DB) :
  marked_sent i db ->
  marked_sent i (commit db (mark_announcement_sent j clk db)).
Proof.
  unfold mark_announcement_sent, marked_sent.
  destruct (find _ _) as [ann|]; cbn [commit announcements]; [|auto].
  intros M a Ha Ea. apply in_map_iff in Ha as (a0 & <- & Ha0).
  destruct (Announcement.id a0 =? Announcement.id ann); cbn in *;
    [discriminate | auto].
Qed.

Section Ticks.
Variable sql_contains : option string -> string -> bool.
Variable deliver : nat -> Z -> string -> bool.

Lemma send_each_ids (i : Z) (text : string) (k : nat) (us : list UserOut.t)
    (ev : event) :
  In ev (send_each deliver i text k us) -> ev_announcement ev = i.
Proof.
  revert k. induction us as [|u us IH]; intros k; cbn; [tauto|].
  intros [<- | H]; [reflexivity | eauto].
Qed.

(** A tick sends only for the fetched rows whose sent time is null. *)
Lemma dispatch_events (clk : Clock) (anns : list AnnouncementOut.t) (k : nat)
    (db : DB) (ev : event) :
  In ev (snd (dispatch sql_contains deliver clk anns k db)) ->
  exists r, In r anns /\ AnnouncementOut.sent_at r = None
            /\ AnnouncementOut.id r = ev_announcement ev.
Proof.
  revert k db. induction anns as [|r anns IH]; intros k db; cbn [dispatch];
    [cbn; tauto|].
  destruct (AnnouncementOut.sent_at r) eqn:Hs.
  - intros H. apply IH in H as (r' & ? & ? & ?). exists r'. cbn. auto.
  - destruct (deliver k GROUP_ID _).
    + destruct (dispatch _ _ _ anns _ _) as [db'' evs'] eqn:D. cbn [snd].
      intros H. apply in_app_or in H as [[<- | H] | H].
      * exists r. cbn. auto.
      * apply send_each_ids in H. exists r. cbn. auto.
      * replace evs' with (snd (dispatch sql_contains deliver clk anns
                                  (S k + List.length
                                     (list_users sql_contains "" "" 100 db))
                                  (commit db (mark_announcement_sent
                                                (AnnouncementOut.id r) clk db))))
          in H by (rewrite D; reflexivity).
        apply IH in H as (r' & ? & ? & ?). exists r'. cbn. auto.
    + cbn. intros [<- | []]. exists r. cbn. auto.
Qed.

Lemma dispatch_keeps (i : Z) (clk : Clock) (anns : list AnnouncementOut.t)
    (k : nat) (db : DB) :
  marked_sent i db ->
  marked_sent i (fst (dispatch sql_contains deliver clk anns k db)).
Proof.
  revert k db. induction anns as [|r anns IH]; intros k db M;
    cbn [dispatch]; [exact M|].
  destruct (AnnouncementOut.sent_at r); [apply IH, M|].
  destruct (deliver k GROUP_ID _); [|exact M].
  specialize (IH (S k + List.length (list_users sql_contains "" "" 100 db))%nat
                 _ (mark_sent_keeps i (AnnouncementOut.id r) clk db M)).
  destruct (dispatch _ _ _ anns _ _) as [db'' evs']. exact IH.
Qed.

Lemma dispatch_ids (clk : Clock) (anns : list AnnouncementOut.t)
    (k : nat) (db : DB) :
  map Announcement.id
      (announcements (fst (dispatch sql_contains deliver clk anns k db)))
  = map Announcement.id (announcements db).
Proof.
  revert k db. induction anns as [|r anns IH]; intros k db;
    cbn [dispatch]; [reflexivity|].
  destruct (AnnouncementOut.sent_at r); [apply IH|].
  destruct (deliver k GROUP_ID _); [|reflexivity].
  specialize (IH (S k + List.length (list_users sql_contains "" "" 100 db))%nat
                 (commit db (mark_announcement_sent
                               (AnnouncementOut.id r) clk db))).
  destruct (dispatch _ _ _ anns _ _) as [db'' evs']. cbn [fst] in *.
  rewrite IH. apply mark_sent_ids.
Qed.

Lemma tick_silent (i : Z) (clk : Clock) (db : DB) (ev : event) :
  marked_sent i db ->
  In ev (snd (send_announcements sql_contains deliver clk db)) ->
  ev_announcement ev <> i.
Proof.
  intros M H E. unfold send_announcements in H. cbv zeta in H.
  apply dispatch_events in H as (r & Hr & Hs & Er).
  apply list_announcements_In in Hr as (a & Ha & ->).
  cbn in Hs, Er. apply (M a Ha); congruence.
Qed.

End Ticks.

Lemma create_announcement_keeps (i : Z) (db : DB)
    (m t a : option string) (p n : bool) (clk : Clock) :
  In i (map Announcement.id (announcements db)) ->
  marked_sent i db ->
  marked_sent i (commit db (create_announcement m t a p n clk db)).
Proof.
  intros Hi M. unfold create_announcement, marked_sent. cbv zeta.
  cbn [commit announcements]. intros x Hx Ex.
  apply in_app_or in Hx as [Hx | [<- | []]]; [auto|].
  cbn [Announcement.id] in Ex. exfalso.
  apply (next_id_fresh (map Announcement.id (announcements db))).
  rewrite Ex. exact Hi.
Qed.

Lemma perform_keeps (sql_contains : option string -> string -> bool)
    (i : Z) (a : activity) (db : DB) :
  In i (map Announcement.id (announcements db)) ->
  marked_sent i db ->
  In i (map Announcement.id
          (announcements (fst (perform sql_contains a db))))
  /\ marked_sent i (fst (perform sql_contains a db))
  /\ (forall ev, In ev (snd (perform sql_contains a db)) ->
        ev_announcement ev <> i).
Proof.
  intros Hi M. destruct a as [message clk | deliver clk | j clk];
    cbn [perform fst snd].
  - split; [|split; [apply create_announcement_keeps; assumption
                    | intros ev []]].
    unfold create_announcement. cbv zeta. cbn [commit announcements].
    rewrite map_app. apply in_or_app. left. exact Hi.
  - split; [|split].
    + unfold send_announcements. cbv zeta. rewrite dispatch_ids. exact Hi.
    + apply dispatch_keeps, M.
    + intros ev. apply tick_silent, M.
  - split; [|split; [apply mark_sent_keeps, M | intros ev []]].
    rewrite mark_sent_ids. exact Hi.
Qed.

(** C9.  An announcement whose sent time is set is never dispatched
    again: whatever happens next (ticks of the job with any deliveries,
    new announcements, calls of mark-sent), no message is sent for it,
    to the group or to a user. *)
Theorem sent_announcement_never_resent
    (sql_contains : option string -> string -> bool)
    (schedule : list activity) (db : DB) (a : Announcement.t) :
  NoDup (map Announcement.id (announcements db)) ->
  In a (announcements db) ->
  Announcement.sent_at a <> None ->
  forall ev, In ev (snd (run sql_contains schedule db)) ->
    ev_announcement ev <> Announcement.id a.
Proof.
  intros N Ha S.
  assert (Hi : In (Announcement.id a) (map Announcement.id (announcements db)))
    by (apply in_map, Ha).
  assert (M : marked_sent (Announcement.id a) db).
  { intros a' Ha' E.
    rewrite (NoDup_id_eq Announcement.id _ a' a N Ha' Ha E). exact S. }
  clear N Ha S. revert db Hi M.
  induction schedule as [|act rest IH]; intros db Hi M ev; cbn [run];
    [cbn; tauto|].
  destruct (perform_keeps sql_contains _ act db Hi M) as (Hi' & M' & Q).
  destruct (perform sql_contains act db) as [db' evs]. cbn [fst snd] in *.
  specialize (IH db' Hi' M' ev).
  destruct (run sql_contains rest db') as [db'' evs']. cbn [snd] in *.
  intros H. apply in_app_or in H as [H | H]; auto.
Qed.

Lemma sent_announcement_never_resent_witness :
  NoDup (map Announcement.id (announcements db_sent))
  /\ In (notice 1 "Eski" 5 (Some (at_noon 2026 1 5))) (announcements db_sent)
  /\ map ev_announcement
         (snd (run AsciiRuntime.sql_contains
                 [Tick always_delivered wednesday; Announce "Xabar" wednesday;
                  Tick always_delivered wednesday] db_sent))
     = [2; 2; 2; 3; 3; 3]
  /\ forall ev,
       In ev (snd (run AsciiRuntime.sql_contains
                     [Tick always_delivered wednesday;
                      Announce "Xabar" wednesday;
                      Tick always_delivered wednesday] db_sent)) ->
       ev_announcement ev <> 1.
Proof.
  assert (N : NoDup (map Announcement.id (announcements db_sent)))
    by (apply NoDup_by_nodup; reflexivity).
  assert (I : In (notice 1 "Eski" 5 (Some (at_noon 2026 1 5)))
                 (announcements db_sent)) by (left; reflexivity).
  split; [exact N | split; [exact I | split; [reflexivity|]]].
  apply (sent_announcement_never_resent AsciiRuntime.sql_contains _ db_sent
           (notice 1 "Eski" 5 (Some (at_noon 2026 1 5))) N I).
  discriminate.
Defined.

(** ** Stats *)






(** ** Registration *)

Lemma find_app_none {A} (p : A -> bool) (l : list A) (x : A) :
  find p l = None -> p x = true -> find p (l ++ [x]) = Some x.
Proof.
  induction l as [|a l IH]; cbn; intros N P; [rewrite P; reflexivity|].
  destruct (p a); [discriminate | auto].
Qed.

(** C10.  [create_user] with a telegram id that is already in the store
    returns the stored user and leaves the store as it is; so a second
    call with the same telegram id returns the user of the first call
    and changes nothing. *)
Theorem create_user_idempotent (user : UserCreate.t) (clk clk' : Clock)
    (db : DB) :
  (exists u, In u (users db)
             /\ User.telegram_id u = UserCreate.telegram_id user) ->
  (exists existing,
      create_user user clk db = Ok (db, existing)
      /\ In existing (users db)
      /\ User.telegram_id existing = UserCreate.telegram_id user)
  /\ commit db (create_user user clk db) = db
  /\ (forall db0 : DB, exists db1 u1,
        create_user user clk db0 = Ok (db1, u1)
        /\ create_user user clk' db1 = Ok (db1, u1)).
Proof.
  intros (u & Hu & Eu).
  assert (F : exists existing,
             user_by_telegram (UserCreate.telegram_id user) db = Some existing).
  { unfold user_by_telegram.
    destruct (find _ (users db)) as [x|] eqn:E; [eauto|].
    exfalso. apply (find_none _ _ E) in Hu. apply Z.eqb_neq in Hu. auto. }
  destruct F as (existing & F).
  split; [|split].
  - exists existing. unfold create_user. rewrite F.
    split; [reflexivity|]. unfold user_by_telegram in F.
    apply find_some in F as [I P]. apply Z.eqb_eq in P. auto.
  - unfold create_user. rewrite F. reflexivity.
  - intros db0. unfold create_user at 1.
    destruct (user_by_telegram _ db0) as [x|] eqn:E.
    + exists db0, x. split; [reflexivity|]. unfold create_user. rewrite E.
      reflexivity.
    + eexists. eexists. split; [reflexivity|].
      unfold create_user, user_by_telegram. cbn [users].
      unfold user_by_telegram in E.
      rewrite (find_app_none _ _ _ E) by (cbn; apply Z.eqb_refl).
      reflexivity.
Qed.

Lemma create_user_idempotent_witness :
  (exists u, In u (users db_abc)
             /\ User.telegram_id u
                = UserCreate.telegram_id (UserCreate.mk 1002 None "Bek" None))
  /\ create_user (UserCreate.mk 1002 None "Bek" None) wednesday db_abc
     = Ok (db_abc, reader 2 "B" 200)
  /\ commit db_abc
        (create_user (UserCreate.mk 1002 None "Bek" None) wednesday db_abc)
     = db_abc.
Proof.
  assert (H : exists u, In u (users db_abc)
                /\ User.telegram_id u
                   = UserCreate.telegram_id
                       (UserCreate.mk 1002 None "Bek" None))
    by (exists (reader 2 "B" 200); split; [right; left|]; reflexivity).
  split; [exact H | split; [reflexivity|]].
  exact (proj1 (proj2 (create_user_idempotent
                         (UserCreate.mk 1002 None "Bek" None)
                         wednesday wednesday db_abc H))).
Defined.

(** ** The /add and /edit commands *)

Section Commands.
Variable strptime : string -> string -> option datetime.
Variable py_int : string -> option Z.
Variable strftime : datetime -> string -> string.

(** [/add] with a page count outside 1..500 is turned down with a
    message, and the store is left as it is. *)
Lemma add_command_rejects_out_of_range (user : Z) (args : list string)
    (clk : Clock) (db : DB) (pages : Z) :
  (exists a0, args = [a0] /\ py_int a0 = Some pages)
  \/ (exists a0 a1, args = [a0; a1] /\ py_int a1 = Some pages) ->
  pages < 1 \/ 500 < pages ->
  fst (add_command strptime py_int user args clk db) = db
  /\ (snd (add_command strptime py_int user args clk db) = [PagesOutOfRange]
      \/ snd (add_command strptime py_int user args clk db)
         = [PagesNotAnInteger]).
Proof.
  intros Hargs Hp.
  assert (R : (pages <=? 0) || (500 <? pages) = true).
  { apply orb_true_iff. rewrite Z.leb_le, Z.ltb_lt. lia. }
  destruct Hargs as [(a0 & -> & P) | (a0 & a1 & -> & P)];
    unfold add_command, int_.
  - rewrite P. cbn [bind]. rewrite R. cbn. auto.
  - rewrite P. destruct (parse_date strptime a0); cbn [bind].
    + rewrite R. cbn. auto.
    + cbn. auto.
Qed.

(** [/add] never changes the store unless the page count is in 1..500. *)
Lemma add_command_changes_only_in_range (user : Z) (args : list string)
    (clk : Clock) (db : DB) :
  fst (add_command strptime py_int user args clk db) <> db ->
  exists a pages, In a args /\ py_int a = Some pages /\ 1 <= pages <= 500.
Proof.
  unfold add_command, int_.
  destruct args as [|a0 [|a1 [|a2 rest]]]; cbn [fst]; try congruence.
  - destruct (py_int a0) as [p|] eqn:P; cbn [bind fst]; [|congruence].
    destruct ((p <=? 0) || (500 <? p)) eqn:R; cbn [fst]; [congruence|].
    apply orb_false_iff in R as [R1 R2].
    apply Z.leb_gt in R1. apply Z.ltb_ge in R2.
    intros _. exists a0, p. cbn. auto with zarith.
  - destruct (parse_date strptime a0); cbn [bind fst]; [|congruence].
    destruct (py_int a1) as [p|] eqn:P; cbn [bind fst]; [|congruence].
    destruct ((p <=? 0) || (500 <? p)) eqn:R; cbn [fst]; [congruence|].
    apply orb_false_iff in R as [R1 R2].
    apply Z.leb_gt in R1. apply Z.ltb_ge in R2.
    intros _. exists a1, p. cbn. auto with zarith.
Qed.

End Commands.

(** C7, where the code departs from it.  [/edit 05.01.2026 501] is not
    turned down: the log of that day becomes 501 pages and the running
    total follows, while [/add] with the same arguments is refused and
    changes nothing. *)
Theorem edit_command_accepts_out_of_range :
  edit_command AsciiRuntime.strptime AsciiRuntime.py_int AsciiRuntime.strftime
               1001 ["05.01.2026"; "501"] db_edit
  = (mkDB [reader 1 "Ali" 501] [log_on 1 1 2026 1 5 501] [],
     [Updated (mkdatetime (mkdate 2026 1 5) 0) 501])
  /\ edit_command AsciiRuntime.strptime AsciiRuntime.py_int
                  AsciiRuntime.strftime 1001 ["05.01.2026"; "-3"] db_edit
     = (mkDB [reader 1 "Ali" (-3)] [log_on 1 1 2026 1 5 (-3)] [],
        [Updated (mkdatetime (mkdate 2026 1 5) 0) (-3)])
  /\ add_command AsciiRuntime.strptime AsciiRuntime.py_int
                 1001 ["05.01.2026"; "501"] wednesday db_edit
     = (db_edit, [PagesOutOfRange]).
Proof. repeat split. Qed.

(** ** The reach of one tick *)

(** C8, where the code departs from it.  With 101 users and one
    announcement waiting, a tick in which every send goes through sends
    to the group and to the 100 users of highest id, and marks the
    announcement sent: the user of id 1 (chat 1001) gets nothing, in
    this tick or later.  With 21 announcements waiting, the oldest is
    not among the 20 the job fetches, in the first tick or the second,
    and stays unsent. *)
Theorem announcement_fan_out_is_capped :
  In (reader 1 "reader" 0) (users db_crowd)
  /\ map ev_chat_id
         (snd (send_announcements AsciiRuntime.sql_contains always_delivered
                 wednesday db_crowd))
     = GROUP_ID :: map (fun i => 1000 + Z.of_nat i) (rev (seq 2 100))
  /\ map Announcement.sent_at
         (announcements
            (fst (send_announcements AsciiRuntime.sql_contains
                    always_delivered wednesday db_crowd)))
     = [Some (utcnow wednesday)]
  /\ map Announcement.sent_at (announcements db_backlog) = repeat None 21
  /\ existsb (Z.eqb 1)
       (map ev_announcement
          (snd (run AsciiRuntime.sql_contains
                  [Tick always_delivered wednesday;
                   Tick always_delivered wednesday] db_backlog)))
     = false
  /\ map Announcement.sent_at
         (announcements
            (fst (run AsciiRuntime.sql_contains
                    [Tick always_delivered wednesday;
                     Tick always_delivered wednesday] db_backlog)))
     = None :: repeat (Some (utcnow wednesday)) 20.
Proof.
  split; [left; reflexivity|].
  repeat split; vm_compute; reflexivity.
Qed.

(* ================================================================== *)
(** * More properties of the service and the bot *)

(** ** Reading logs: how the requests compose *)

Lemma find_map {A} (p : A -> bool) (f : A -> A) (l : list A) :
  (forall x, p (f x) = p x) ->
  find p (map f l) = option_map f (find p l).
Proof.
  intros H. induction l as [|a l IH]; cbn; [reflexivity|].
  rewrite H. destruct (p a); [reflexivity | exact IH].
Qed.

Lemma user_by_telegram_update (tid i : Z) (f : User.t -> User.t) (db : DB)
    (ls : list ReadingLog.t) (anns : list Announcement.t) :
  (forall u, User.telegram_id (f u) = User.telegram_id u) ->
  user_by_telegram tid (mkDB (update_user i f (users db)) ls anns)
  = option_map (fun u => if User.id u =? i then f u else u)
               (user_by_telegram tid db).
Proof.
  intros H. unfold user_by_telegram, update_user. cbn [users].
  apply find_map. intros u. destruct (User.id u =? i); [rewrite H|];
    reflexivity.
Qed.



Section Composition.
Variable strptime : string -> string -> option datetime.












End Composition.




(** ** The two listings *)

Lemma sql_limit_length {A} (n : Z) (l : list A) :
  0 <= n -> Z.of_nat (List.length (sql_limit n l)) <= n.
Proof.
  intros H. unfold sql_limit.
  replace (n <? 0) with false by (symmetry; apply Z.ltb_ge; lia).
  pose proof (firstn_le_length (Z.to_nat n) l). lia.
Qed.

Lemma sql_limit_all {A} (n : Z) (l : list A) :
  n < 0 \/ Z.of_nat (List.length l) <= n -> sql_limit n l = l.
Proof.
  intros H. unfold sql_limit. destruct (n <? 0) eqn:E; [reflexivity|].
  apply Z.ltb_ge in E. apply firstn_all2. lia.
Qed.


Lemma datetime_leb_total (a b : datetime) :
  datetime_leb a b = false -> datetime_leb b a = true.
Proof.
  unfold datetime_leb, date_eqb, date_leb.
  destruct a as [[ya ma da] ta], b as [[yb mb db] tb]. cbn.
  rewrite (Z.eqb_sym yb ya), (Z.eqb_sym mb ma), (Z.eqb_sym db da).
  destruct (Z.eqb_spec ya yb), (Z.eqb_spec ma mb), (Z.eqb_spec da db);
    cbn; subst;
    repeat match goal with
    | |- context [?x <? ?y] => destruct (Z.ltb_spec x y)
    | |- context [?x <=? ?y] => destruct (Z.leb_spec x y)
    end; cbn; try reflexivity; try discriminate; try lia;
    intros; exfalso; lia.
Qed.

Section Sortedness.
Context {A : Type} (before : A -> A -> bool).
Hypothesis before_total : forall x y, before x y = false -> before y x = true.

Lemma insert_by_sorted (x : A) (l : list A) :
  Sorted (fun a b => before a b = true) l ->
  Sorted (fun a b => before a b = true) (insert_by before x l).
Proof.
  induction 1 as [|y l S IH H]; cbn.
  - repeat constructor.
  - destruct (before x y) eqn:E.
    + constructor; [constructor; assumption | constructor; exact E].
    + constructor; [exact IH|].
      destruct l as [|z l]; cbn.
      * constructor. apply before_total, E.
      * inversion H; subst.
        destruct (before x z); constructor; auto.
Qed.

Lemma order_by_sorted (l : list A) :
  Sorted (fun a b => before a b = true) (order_by before l).
Proof.
  unfold order_by. induction l as [|x l IH]; cbn; [constructor|].
  apply insert_by_sorted, IH.
Qed.

End Sortedness.

Lemma Sorted_firstn {A} (R : A -> A -> Prop) (n : nat) (l : list A) :
  Sorted R l -> Sorted R (firstn n l).
Proof.
  revert n. induction l as [|x l IH]; intros [|n] S; cbn; try constructor.
  - apply IH. inversion S; assumption.
  - inversion S as [|? ? _ H]; subst.
    destruct l as [|y l]; destruct n; cbn; constructor.
    inversion H; assumption.
Qed.

Lemma Sorted_map {A B} (R : B -> B -> Prop) (f : A -> B) (l : list A) :
  Sorted (fun x y => R (f x) (f y)) l -> Sorted R (map f l).
Proof.
  induction 1 as [|x l S IH H]; cbn; constructor; auto.
  destruct H; cbn; constructor; auto.
Qed.

(** [GET /api/announcements]: at most 20 rows, each an announcement of the
    store with its sent time, the most recently created first; with 20
    announcements or fewer, all of them. *)
Theorem list_announcements_spec (db : DB) :
  (forall r, In r (list_announcements db) ->
     exists a, In a (announcements db) /\ r = announcement_out a)
  /\ (List.length (list_announcements db) <= 20)%nat
  /\ Sorted (fun r s => datetime_leb (AnnouncementOut.created_at s)
                                     (AnnouncementOut.created_at r) = true)
            (list_announcements db)
  /\ ((List.length (announcements db) <= 20)%nat ->
      Permutation (list_announcements db)
                  (map announcement_out (announcements db))).
Proof.
  split; [apply list_announcements_In | split; [|split]];
    unfold list_announcements; cbv zeta.
  - rewrite length_map.
    pose proof (sql_limit_length 20
                  (order_by (fun a b => datetime_leb
                                          (Announcement.created_at b)
                                          (Announcement.created_at a))
                            (announcements db))). lia.
  - apply Sorted_map with (f := announcement_out)
      (R := fun r s => datetime_leb (AnnouncementOut.created_at s)
                                    (AnnouncementOut.created_at r) = true).
    cbn [announcement_out AnnouncementOut.created_at].
    unfold sql_limit. cbn [Z.ltb Z.compare].
    apply Sorted_firstn.
    apply (order_by_sorted
             (fun a b => datetime_leb (Announcement.created_at b)
                                      (Announcement.created_at a))).
    intros x y. apply datetime_leb_total.
  - intros H. rewrite sql_limit_all by (rewrite order_by_length; lia).
    apply Permutation_map, order_by_perm.
Qed.

(** ** Ticks of the announcement job *)

Lemma map_id_on {A} (f : A -> A) (l : list A) :
  (forall x, In x l -> f x = x) -> map f l = l.
Proof.
  induction l as [|a l IH]; cbn; [reflexivity|].
  intros H. rewrite (H a), IH by auto. reflexivity.
Qed.

Lemma mark_sent_announcements (i : Z) (clk : Clock) (db : DB) :
  commit db (mark_announcement_sent i clk db)
  = mkDB (users db) (reading_logs db)
         (map (mark_row i (utcnow clk)) (announcements db)).
Proof.
  unfold mark_announcement_sent.
  destruct (find _ _) as [ann|] eqn:F; cbn [commit].
  - apply find_some in F as [_ E]. apply Z.eqb_eq in E. rewrite E.
    reflexivity.
  - rewrite map_id_on; [destruct db; reflexivity|].
    intros a Ha. unfold mark_row.
    rewrite (find_none _ _ F a Ha). reflexivity.
Qed.

Lemma insert_by_map {A} (before : A -> A -> bool) (g : A -> A) (x : A)
    (l : list A) :
  (forall a b, before (g a) (g b) = before a b) ->
  insert_by before (g x) (map g l) = map g (insert_by before x l).
Proof.
  intros H. induction l as [|y l IH]; cbn; [reflexivity|].
  rewrite H. destruct (before x y); cbn; [reflexivity|].
  rewrite IH. reflexivity.
Qed.

Lemma order_by_map {A} (before : A -> A -> bool) (g : A -> A) (l : list A) :
  (forall a b, before (g a) (g b) = before a b) ->
  order_by before (map g l) = map g (order_by before l).
Proof.
  intros H. unfold order_by. induction l as [|x l IH]; cbn; [reflexivity|].
  rewrite IH. apply insert_by_map, H.
Qed.

Lemma sql_limit_map {A B} (f : A -> B) (n : Z) (l : list A) :
  sql_limit n (map f l) = map f (sql_limit n l).
Proof.
  unfold sql_limit. destruct (n <? 0); [reflexivity | apply firstn_map].
Qed.

Lemma newest_20_map (g : Announcement.t -> Announcement.t)
    (anns : list Announcement.t) :
  (forall a, Announcement.created_at (g a) = Announcement.created_at a) ->
  newest_20 (map g anns) = map g (newest_20 anns).
Proof.
  intros H. unfold newest_20. rewrite order_by_map, sql_limit_map;
    [reflexivity|]. intros a b. rewrite !H. reflexivity.
Qed.

Lemma mark_row_created (i : Z) (t : datetime) (a : Announcement.t) :
  Announcement.created_at (mark_row i t a) = Announcement.created_at a.
Proof. unfold mark_row. destruct (_ =? _); reflexivity. Qed.

Lemma mark_row_id (i : Z) (t : datetime) (a : Announcement.t) :
  Announcement.id (mark_row i t a) = Announcement.id a.
Proof. unfold mark_row. destruct (_ =? _); reflexivity. Qed.

(** Mark-sent keeps the listing as it is, row by row, except for the sent
    time of the rows with the given id, which becomes the time of the
    call, also when one was set before. *)
Theorem mark_sent_listing (i : Z) (clk : Clock) (db : DB) :
  list_announcements (commit db (mark_announcement_sent i clk db))
  = map (fun r =>
           if AnnouncementOut.id r =? i
           then AnnouncementOut.mk (AnnouncementOut.id r)
                  (AnnouncementOut.message r) (AnnouncementOut.created_at r)
                  (Some (utcnow clk))
           else r)
        (list_announcements db).
Proof.
  rewrite mark_sent_announcements. unfold list_announcements. cbv zeta.
  cbn [announcements]. fold (newest_20 (announcements db)).
  fold (newest_20 (map (mark_row i (utcnow clk)) (announcements db))).
  rewrite newest_20_map by apply mark_row_created.
  rewrite !map_map. apply map_ext. intros a.
  unfold mark_row, announcement_out. cbn [AnnouncementOut.id].
  destruct (Announcement.id a =? i); reflexivity.
Qed.

Section TickFacts.
Variable sql_contains : option string -> string -> bool.

(** A tick whose group sends all fail: at most the one failed send, and
    the store is as before. *)
Theorem failed_group_send_stops_the_tick
    (deliver : nat -> Z -> string -> bool) (clk : Clock) (db : DB) :
  (forall k text, deliver k GROUP_ID text = false) ->
  fst (send_announcements sql_contains deliver clk db) = db
  /\ (List.length (snd (send_announcements sql_contains deliver clk db))
      <= 1)%nat
  /\ (forall ev,
        In ev (snd (send_announcements sql_contains deliver clk db)) ->
        ev_chat_id ev = GROUP_ID /\ ev_delivered ev = false).
Proof.
  intros H. unfold send_announcements. cbv zeta.
  generalize (list_announcements db) as anns. generalize 0%nat as k.
  intros k anns. induction anns as [|r anns IH]; cbn [dispatch].
  - cbn. split; [reflexivity | split; [lia | intros ev []]].
  - destruct (AnnouncementOut.sent_at r); [exact IH|].
    rewrite H. cbn [fst snd List.length].
    split; [reflexivity | split; [lia|]].
    intros ev [<- | []]. split; reflexivity.
Qed.

Lemma dispatch_only_marks (deliver : nat -> Z -> string -> bool)
    (clk : Clock) (rows : list AnnouncementOut.t) (k : nat) (db : DB) :
  (forall k text, deliver k GROUP_ID text = true) ->
  only_marks (unsent_ids rows) db
             (fst (dispatch sql_contains deliver clk rows k db)).
Proof.
  intros H. revert k db.
  induction rows as [|r rows IH]; intros k db; cbn [dispatch].
  - cbn. split; [reflexivity | split; [reflexivity|]].
    exists (fun a => a). split; [symmetry; apply map_id|].
    intros a. repeat split; auto. intros [S | []]. exact S.
  - unfold unsent_ids. cbn [filter].
    destruct (AnnouncementOut.sent_at r) eqn:Hs; [apply IH|].
    rewrite H. cbn [map].
    specialize (IH (S k + List.length (list_users sql_contains "" "" 100 db))%nat
                   (commit db (mark_announcement_sent
                                 (AnnouncementOut.id r) clk db))).
    destruct (dispatch _ _ _ rows _ _) as [db'' evs']. cbn [fst] in *.
    rewrite mark_sent_announcements in IH.
    destruct IH as (U & L & g & G & Hg). cbn [users reading_logs announcements]
      in U, L, G.
    split; [exact U | split; [exact L|]].
    exists (fun a => g (mark_row (AnnouncementOut.id r) (utcnow clk) a)).
    split; [rewrite G, map_map; reflexivity|].
    intros a.
    destruct (Hg (mark_row (AnnouncementOut.id r) (utcnow clk) a))
      as (I & C & M & S).
    rewrite I, C, M, mark_row_id, mark_row_created.
    repeat split.
    + unfold mark_row. destruct (_ =? _); reflexivity.
    + intros Hyp. apply S. rewrite mark_row_id. unfold mark_row.
      destruct (Announcement.id a =? AnnouncementOut.id r) eqn:E.
      * left. cbn. discriminate.
      * destruct Hyp as [Hyp | [Hyp | Hyp]]; auto.
        apply Z.eqb_neq in E. congruence.
Qed.

Lemma dispatch_all_sent (deliver : nat -> Z -> string -> bool)
    (clk : Clock) (rows : list AnnouncementOut.t) (k : nat) (db : DB) :
  (forall r, In r rows -> AnnouncementOut.sent_at r <> None) ->
  dispatch sql_contains deliver clk rows k db = (db, []).
Proof.
  induction rows as [|r rows IH]; cbn [dispatch]; [reflexivity|].
  intros H. destruct (AnnouncementOut.sent_at r) eqn:Hs.
  - apply IH. intros r' Hr'. apply H. right. exact Hr'.
  - exfalso. apply (H r); [left; reflexivity | exact Hs].
Qed.

(** After a tick in which the sends to the group went through (whatever
    happened to the sends to users), the fetched announcements are all
    marked: a second tick sends nothing and changes nothing. *)
Theorem second_tick_is_silent (deliver deliver' : nat -> Z -> string -> bool)
    (clk clk' : Clock) (db : DB) :
  (forall k text, deliver k GROUP_ID text = true) ->
  let db1 := fst (send_announcements sql_contains deliver clk db) in
  send_announcements sql_contains deliver' clk' db1 = (db1, [])
  /\ users db1 = users db /\ reading_logs db1 = reading_logs db.
Proof.
  intros H. cbv zeta. unfold send_announcements at 2 3 4. cbv zeta.
  pose proof (dispatch_only_marks deliver clk (list_announcements db) 0 db H)
    as (U & L & g & G & Hg).
  set (db1 := fst (dispatch sql_contains deliver clk
                     (list_announcements db) 0 db)) in *.
  split; [|split; assumption].
  unfold send_announcements. cbv zeta. apply dispatch_all_sent.
  intros r Hr. unfold list_announcements in Hr. cbv zeta in Hr.
  fold (newest_20 (announcements db1)) in Hr.
  rewrite G, newest_20_map in Hr by (intros a; apply (Hg a)).
  rewrite map_map in Hr. apply in_map_iff in Hr as (a & <- & Ha).
  cbn [announcement_out AnnouncementOut.sent_at].
  apply (Hg a).
  destruct (Announcement.sent_at a) eqn:Hs; [left; discriminate | right].
  unfold unsent_ids. apply in_map_iff.
  exists (announcement_out a). split; [reflexivity|].
  apply filter_In. split.
  - unfold list_announcements. cbv zeta. apply in_map. exact Ha.
  - cbn. rewrite Hs. reflexivity.
Qed.


Lemma order_by_newest {A} (before : A -> A -> bool) (x : A) (l : list A) :
  (forall y, In y l -> before y x = false) ->
  order_by before (l ++ [x]) = x :: order_by before l.
Proof.
  unfold order_by. induction l as [|y l IH]; cbn; [reflexivity|].
  intros H. rewrite IH by auto. cbn. rewrite (H y) by auto. reflexivity.
Qed.

Lemma mark_sent_marks (i : Z) (clk : Clock) (db : DB) :
  marked_sent i (commit db (mark_announcement_sent i clk db)).
Proof.
  rewrite mark_sent_announcements. intros a Ha E. cbn [announcements] in Ha.
  apply in_map_iff in Ha as (a0 & <- & _). rewrite mark_row_id in E.
  unfold mark_row. apply Z.eqb_eq in E. rewrite E. cbn. discriminate.
Qed.

(** An announcement created later than all the others goes out on the
    next tick: when the send to the group goes through, the tick starts
    with it, tries every listed user, and leaves the announcement
    marked. *)
Theorem new_announcement_goes_out (deliver : nat -> Z -> string -> bool)
    (message : string) (clk clk' : Clock) (db : DB) :
  (forall a, In a (announcements db) ->
     datetime_leb (utcnow clk) (Announcement.created_at a) = false) ->
  deliver 0%nat GROUP_ID (announcement_text message) = true ->
  let db1 := fst (perform sql_contains (Announce message clk) db) in
  let new_id := next_id (map Announcement.id (announcements db)) in
  (exists rest,
      snd (send_announcements sql_contains deliver clk' db1)
      = mkevent new_id GROUP_ID (announcement_text message) true
        :: send_each deliver new_id (announcement_text message) 1
             (list_users sql_contains "" "" 100 db1)
        ++ rest)
  /\ marked_sent new_id (fst (send_announcements sql_contains deliver clk' db1)).
Proof.
  intros New D. cbv zeta. cbn [perform fst].
  unfold create_announcement. cbv zeta. cbn [commit Announcement.id].
  set (new_id := next_id (map Announcement.id (announcements db))).
  set (ann := Announcement.mk new_id message "general" "all" 0 1
                              (utcnow clk) None).
  set (db1 := mkDB (users db) (reading_logs db) (announcements db ++ [ann])).
  assert (L : exists rows, list_announcements db1
                           = announcement_out ann :: rows).
  { unfold list_announcements. cbv zeta. cbn [db1 announcements].
    rewrite order_by_newest by (intros y Hy; cbn; apply New, Hy).
    eexists. reflexivity. }
  destruct L as (rows & L).
  unfold send_announcements. cbv zeta. rewrite L. cbn [dispatch].
  subst ann.
  cbn [announcement_out AnnouncementOut.sent_at AnnouncementOut.message
       AnnouncementOut.id Announcement.sent_at Announcement.message
       Announcement.id].
  rewrite D.
  pose proof (dispatch_keeps sql_contains deliver new_id clk' rows
                (S 0 + List.length (list_users sql_contains "" "" 100 db1))
                _ (mark_sent_marks new_id clk' db1)) as K.
  destruct (dispatch _ _ _ rows _ _) as [db'' evs']. cbn [fst snd] in *.
  split; [|exact K].
  exists evs'. reflexivity.
Qed.

End TickFacts.

Lemma failed_group_send_stops_the_tick_witness :
  (forall k text, never_delivered k GROUP_ID text = false)
  /\ send_announcements AsciiRuntime.sql_contains never_delivered wednesday
       db_backlog
     = (db_backlog, [mkevent 21 GROUP_ID (announcement_text "Salom") false])
  /\ fst (send_announcements AsciiRuntime.sql_contains never_delivered
            wednesday db_backlog) = db_backlog.
Proof.
  assert (H : forall k text, never_delivered k GROUP_ID text = false)
    by reflexivity.
  split; [exact H | split; [reflexivity|]].
  exact (proj1 (failed_group_send_stops_the_tick AsciiRuntime.sql_contains
                  never_delivered wednesday db_backlog H)).
Defined.

Lemma second_tick_is_silent_witness :
  (forall k text, always_delivered k GROUP_ID text = true)
  /\ send_announcements AsciiRuntime.sql_contains never_delivered wednesday
       (fst (send_announcements AsciiRuntime.sql_contains always_delivered
               wednesday db_sent))
     = (fst (send_announcements AsciiRuntime.sql_contains always_delivered
               wednesday db_sent), []).
Proof.
  assert (H : forall k text, always_delivered k GROUP_ID text = true)
    by reflexivity.
  split; [exact H|].
  exact (proj1 (second_tick_is_silent AsciiRuntime.sql_contains
                  always_delivered never_delivered wednesday wednesday
                  db_sent H)).
Defined.

Lemma new_announcement_goes_out_witness :
  (forall a, In a (announcements db_sent) ->
     datetime_leb (utcnow wednesday) (Announcement.created_at a) = false)
  /\ always_delivered 0%nat GROUP_ID (announcement_text "Xabar") = true
  /\ marked_sent 3
       (fst (send_announcements AsciiRuntime.sql_contains always_delivered
               wednesday
               (fst (perform AsciiRuntime.sql_contains
                       (Announce "Xabar" wednesday) db_sent)))).
Proof.
  assert (New : forall a, In a (announcements db_sent) ->
            datetime_leb (utcnow wednesday) (Announcement.created_at a)
            = false)
    by (intros a [<- | [<- | []]]; reflexivity).
  assert (D : always_delivered 0%nat GROUP_ID (announcement_text "Xabar")
              = true) by reflexivity.
  split; [exact New | split; [exact D|]].
  exact (proj2 (new_announcement_goes_out AsciiRuntime.sql_contains
                  always_delivered "Xabar" wednesday wednesday db_sent
                  New D)).
Defined.

(** ** Registration and what the requests keep *)


Section Kept.
Variable strptime : string -> string -> option datetime.

Lemma update_user_map {B} (h : User.t -> B) (i : Z) (f : User.t -> User.t)
    (us : list User.t) :
  (forall u, h (f u) = h u) -> map h (update_user i f us) = map h us.
Proof.
  intros H. unfold update_user. rewrite map_map. apply map_ext. intros u.
  destruct (User.id u =? i); auto.
Qed.

Lemma serve_users (clk : Clock) (r : request) (db : DB) :
  (exists new_user,
      map untouched (users (serve strptime clk r db))
      = map untouched (users db) ++ [untouched new_user]
      /\ user_by_telegram (User.telegram_id new_user) db = None
      /\ User.current_streak new_user = 0 /\ User.longest_streak new_user = 0
      /\ User.books_completed new_user = 0)
  \/ map untouched (users (serve strptime clk r db))
     = map untouched (users db).
Proof.
  destruct r as [user | tid log | tid date pages | tid date]; cbn [serve].
  - unfold create_user.
    destruct (user_by_telegram _ db) eqn:E; cbn [commit users];
      [right; reflexivity|].
    left. eexists. rewrite map_app. split; [reflexivity|].
    cbn. auto.
  - right. unfold create_reading_log.
    destruct (user_by_telegram tid db); cbn [commit users]; [|reflexivity].
    apply update_user_map. reflexivity.
  - right. unfold update_reading_log.
    destruct (user_by_telegram tid db); cbn [commit]; [|reflexivity].
    destruct (strptime date "%Y-%m-%d"); cbn [commit]; [|reflexivity].
    destruct (log_by_date _ _ db); cbn [commit users]; [|reflexivity].
    apply update_user_map. reflexivity.
  - right. unfold delete_reading_log.
    destruct (user_by_telegram tid db); cbn [commit]; [|reflexivity].
    destruct (strptime date "%Y-%m-%d"); cbn [commit]; [|reflexivity].
    destruct (log_by_date _ _ db); cbn [commit users]; [|reflexivity].
    apply update_user_map. reflexivity.
Qed.

(** Telegram ids stay unique, and nothing writes the streaks or the
    number of books: from a store where they are 0 they stay 0, whatever
    is logged. *)
Theorem requests_keep_identity_and_streaks (rs : list (Clock * request))
    (db : DB) :
  NoDup (map User.telegram_id (users db)) ->
  (forall u, In u (users db) ->
     User.current_streak u = 0 /\ User.longest_streak u = 0
     /\ User.books_completed u = 0) ->
  NoDup (map User.telegram_id (users (serve_all strptime rs db)))
  /\ (forall u, In u (users (serve_all strptime rs db)) ->
        User.current_streak u = 0 /\ User.longest_streak u = 0
        /\ User.books_completed u = 0).
Proof.
  revert db. induction rs as [|[clk r] rs IH]; intros db N Z0;
    cbn [serve_all]; [auto|].
  assert (P : forall d : DB,
             (forall u, In u (users d) ->
                User.current_streak u = 0 /\ User.longest_streak u = 0
                /\ User.books_completed u = 0)
             <-> Forall (fun t => snd (fst (fst t)) = 0 /\ snd (fst t) = 0
                                  /\ snd t = 0)
                        (map untouched (users d))).
  { intros d. rewrite Forall_forall. split.
    - intros H t Ht. apply in_map_iff in Ht as (u & <- & Hu). apply H, Hu.
    - intros H u Hu. apply (H (untouched u)), in_map, Hu. }
  assert (T : forall d : DB,
             map User.telegram_id (users d)
             = map (fun t => fst (fst (fst (fst t))))
                   (map untouched (users d))).
  { intros d. rewrite map_map. reflexivity. }
  apply IH.
  - rewrite T. destruct (serve_users clk r db) as [(nu & E & F & _) | E];
      rewrite E; [|rewrite <- T; exact N].
    rewrite map_app, <- T. cbn.
    apply NoDup_app; [exact N | repeat constructor; cbn; tauto|].
    intros x Hx [<- | []].
    apply in_map_iff in Hx as (u & Eu & Hu).
    unfold user_by_telegram in F.
    apply (find_none _ _ F) in Hu. apply Z.eqb_neq in Hu. auto.
  - apply P. destruct (serve_users clk r db) as [(nu & E & _ & S) | E];
      rewrite E; [|apply P, Z0].
    apply Forall_app. split; [apply P, Z0|].
    constructor; [cbn; tauto | constructor].
Qed.

End Kept.

(** ** Totals across the store *)







Lemma requests_keep_identity_and_streaks_witness :
  NoDup (map User.telegram_id (users db_abc))
  /\ (forall u, In u (users db_abc) ->
        User.current_streak u = 0 /\ User.longest_streak u = 0
        /\ User.books_completed u = 0)
  /\ NoDup (map User.telegram_id
              (users (serve_all AsciiRuntime.strptime requests_abc db_abc))).
Proof.
  assert (N : NoDup (map User.telegram_id (users db_abc)))
    by (apply NoDup_by_nodup; reflexivity).
  assert (Z0 : forall u, In u (users db_abc) ->
             User.current_streak u = 0 /\ User.longest_streak u = 0
             /\ User.books_completed u = 0)
    by (intros u [<- | [<- | [<- | []]]]; repeat split; reflexivity).
  split; [exact N | split; [exact Z0|]].
  exact (proj1 (requests_keep_identity_and_streaks AsciiRuntime.strptime
                  requests_abc db_abc N Z0)).
Defined.


(** ** The all-time leaderboard and the monthly report *)










(** ** Profile updates *)

Lemma apply_fields_keeps (fields : UpdateFields.t) (u : User.t) :
  User.id (apply_fields fields u) = User.id u
  /\ User.telegram_id (apply_fields fields u) = User.telegram_id u
  /\ User.total_pages (apply_fields fields u) = User.total_pages u.
Proof.
  unfold apply_fields. destruct fields as [[?|] [?|] [?|] [?|]]; cbn;
    repeat split; reflexivity.
Qed.

Lemma store_ok_update_users (i : Z) (f : User.t -> User.t) (db : DB) :
  (forall u, User.id (f u) = User.id u
             /\ User.total_pages (f u) = User.total_pages u) ->
  store_ok db ->
  store_ok (mkDB (update_user i f (users db)) (reading_logs db)
                 (announcements db)).
Proof.
  intros H ((Nu & Nl & Fk) & T).
  assert (Ids : map User.id (update_user i f (users db))
                = map User.id (users db))
    by (apply update_user_ids; intros u; apply H).
  split; [split; [|split]|]; cbn [users reading_logs].
  - rewrite Ids. exact Nu.
  - exact Nl.
  - rewrite Ids. exact Fk.
  - intros u' Hu'. apply update_user_In in Hu' as (u & Hu & ->).
    destruct (User.id u =? i); [|apply T, Hu].
    destruct (H u) as [-> ->]. apply T, Hu.
Qed.

(** Changing a status or the goals, reminder time and time zone leaves
    the logs, the ids and the running totals alone, so the store stays in
    order; and the status is never looked at when a log is created: the
    request is answered the same whatever status was set, "banned"
    included. *)
Theorem profile_updates_keep_the_store (user_id tid : Z) (status : string)
    (fields : UpdateFields.t) (log : ReadingLogCreate.t) (clk : Clock)
    (db : DB) :
  store_ok db ->
  store_ok (commit db (update_user_status user_id status db))
  /\ store_ok (commit db (update_user_fields tid fields db))
  /\ reading_logs (commit db (update_user_status user_id status db))
     = reading_logs db
  /\ reading_logs (commit db (update_user_fields tid fields db))
     = reading_logs db
  /\ answer (create_reading_log log tid clk
               (commit db (update_user_status user_id status db)))
     = answer (create_reading_log log tid clk db).
Proof.
  intros S.
  assert (A : forall us,
             commit db (match find (fun u => User.id u =? user_id) (users db)
                        with
                        | Some user =>
                            Ok (mkDB (update_user (User.id user)
                                        (set_status status) (users db))
                                     (reading_logs db) (announcements db), tt)
                        | None => Raise (HTTPException 404 us)
                        end)
             = mkDB (update_user user_id (set_status status) (users db))
                    (reading_logs db) (announcements db)).
  { intros us. destruct (find _ (users db)) as [x|] eqn:F; cbn [commit].
    - apply find_some in F as [_ E]. apply Z.eqb_eq in E. rewrite E.
      reflexivity.
    - unfold update_user. rewrite map_id_on; [destruct db; reflexivity|].
      intros u Hu. rewrite (find_none _ _ F u Hu). reflexivity. }
  unfold update_user_status. rewrite A.
  split; [|split; [|split; [|split]]].
  - apply store_ok_update_users; [|exact S]. intros u. split; reflexivity.
  - unfold update_user_fields.
    destruct (user_by_telegram tid db); cbn [commit]; [|exact S].
    apply store_ok_update_users; [|exact S]. intros u.
    destruct (apply_fields_keeps fields u) as (? & _ & ?). auto.
  - reflexivity.
  - unfold update_user_fields.
    destruct (user_by_telegram tid db); reflexivity.
  - unfold create_reading_log.
    rewrite user_by_telegram_update by reflexivity.
    destruct (user_by_telegram tid db) as [u|]; cbn [option_map answer];
      [|reflexivity].
    destruct (User.id u =? user_id); reflexivity.
Qed.

(** ** More of the bot *)


Lemma prefix_append (p s : string) : String.prefix p (p ++ s)%string = true.
Proof.
  induction p as [|c p IH]; cbn; [destruct s; reflexivity|].
  destruct (ascii_dec c c); [exact IH | congruence].
Qed.

Lemma remove_go_skip (old t s : string) :
  remove_go old (String.length t) (t ++ s)%string = remove_go old 0 s.
Proof. induction t as [|c t IH]; cbn; [reflexivity | exact IH]. Qed.

(** Dropping the occurrences of [c p] from [c p ++ s] drops the one in
    front and goes on in [s]. *)
Lemma remove_all_prefix (c : ascii) (p s : string) :
  remove_all (String c p) (String c p ++ s)%string = remove_all (String c p) s.
Proof.
  unfold remove_all. cbn [append remove_go].
  change (String c (p ++ s)%string) with (String c p ++ s)%string.
  rewrite prefix_append.
  replace (String.length (String c p) - 1)%nat with (String.length p)
    by (cbn [String.length]; lia).
  apply remove_go_skip.
Qed.

Section BotFacts.
Variable strptime : string -> string -> option datetime.
Variable py_int : string -> option Z.
Variable strftime : datetime -> string -> string.
Variable py_lower : string -> string.


(** [/edit] answers that the log was updated whenever its two arguments
    parse, also when the sender is not registered or has no log on that
    day, where nothing has changed. *)
Theorem edit_command_always_says_updated (user : Z) (a0 a1 : string)
    (date : datetime) (pages : Z) (db : DB) :
  parse_date strptime a0 = Ok date ->
  py_int a1 = Some pages ->
  snd (edit_command strptime py_int strftime user [a0; a1] db)
  = [Updated date pages]
  /\ (user_by_telegram user db = None ->
      fst (edit_command strptime py_int strftime user [a0; a1] db) = db)
  /\ (forall (u : User.t) (parsed : datetime),
        user_by_telegram user db = Some u ->
        strptime (strftime date "%Y-%m-%d") "%Y-%m-%d" = Some parsed ->
        log_by_date (User.id u) (dt_date parsed) db = None ->
        fst (edit_command strptime py_int strftime user [a0; a1] db) = db).
Proof.
  intros D P. unfold edit_command, int_. rewrite D, P. cbn [bind fst snd].
  split; [reflexivity|]. unfold update_reading_log. split.
  - intros E. rewrite E. reflexivity.
  - intros u parsed E Sp L. rewrite E, Sp, L. reflexivity.
Qed.


(** [/delete] changes nothing by itself: it asks, with two buttons.  The
    "no" button changes nothing either; the "yes" button deletes the log
    of the day that was asked about. *)
Theorem delete_needs_confirmation (user : Z) (args : list string) (db : DB) :
  fst (delete_command strptime strftime user args db) = db
  /\ forall date yes_data no_data,
       snd (delete_command strptime strftime user args db)
       = [ConfirmDelete date yes_data no_data] ->
       button_callback strptime user no_data db = (db, [Cancelled])
       /\ (remove_all "delete_confirm_" (strftime date "%Y-%m-%d")
           = strftime date "%Y-%m-%d" ->
           button_callback strptime user yes_data db
           = (commit db (delete_reading_log strptime
                           (strftime date "%Y-%m-%d") user db), [Deleted])).
Proof.
  unfold delete_command.
  destruct args as [|a0 [|a1 rest]]; cbn [fst snd];
    try (split; [reflexivity | discriminate]).
  destruct (parse_date strptime a0) as [d|]; cbn [fst snd];
    [|split; [reflexivity | discriminate]].
  split; [reflexivity|]. intros date yes no E. injection E as <- <- <-.
  split; [reflexivity|]. intros R.
  pose proof (prefix_append "delete_confirm_" (strftime d "%Y-%m-%d")) as Hp.
  pose proof (remove_all_prefix "d" "elete_confirm_"
                (strftime d "%Y-%m-%d")) as Hr.
  simpl append in Hp, Hr.
  unfold button_callback. rewrite Hp, Hr.
  rewrite R. reflexivity.
Qed.

End BotFacts.

Lemma profile_updates_keep_the_store_witness :
  store_ok db_abc
  /\ store_ok (commit db_abc (update_user_status 1 "banned" db_abc))
  /\ answer (create_reading_log forty_pages 1001 wednesday
               (commit db_abc (update_user_status 1 "banned" db_abc)))
     = answer (create_reading_log forty_pages 1001 wednesday db_abc).
Proof.
  assert (S : store_ok db_abc)
    by (split; [exact db_abc_integrity | exact db_abc_totals]).
  split; [exact S|].
  destruct (profile_updates_keep_the_store 1 1001 "banned"
              (UpdateFields.mk (Some 60) None None None) forty_pages
              wednesday db_abc S) as (A & _ & _ & _ & B).
  split; [exact A | exact B].
Defined.


Lemma edit_command_always_says_updated_witness :
  parse_date AsciiRuntime.strptime "05.01.2026"
  = Ok (mkdatetime (mkdate 2026 1 5) 0)
  /\ AsciiRuntime.py_int "60" = Some 60
  /\ user_by_telegram 9999 db_abc = None
  /\ edit_command AsciiRuntime.strptime AsciiRuntime.py_int
       AsciiRuntime.strftime 9999 ["05.01.2026"; "60"] db_abc
     = (db_abc, [Updated (mkdatetime (mkdate 2026 1 5) 0) 60]).
Proof.
  assert (D : parse_date AsciiRuntime.strptime "05.01.2026"
              = Ok (mkdatetime (mkdate 2026 1 5) 0)) by reflexivity.
  assert (P : AsciiRuntime.py_int "60" = Some 60) by reflexivity.
  assert (E : user_by_telegram 9999 db_abc = None) by reflexivity.
  split; [exact D | split; [exact P | split; [exact E|]]].
  destruct (edit_command_always_says_updated AsciiRuntime.strptime
              AsciiRuntime.py_int AsciiRuntime.strftime 9999 "05.01.2026"
              "60" (mkdatetime (mkdate 2026 1 5) 0) 60 db_abc D P)
    as (A & B & _).
  specialize (B E).
  destruct (edit_command AsciiRuntime.strptime AsciiRuntime.py_int
              AsciiRuntime.strftime 9999 ["05.01.2026"; "60"] db_abc)
    as [d r].
  cbn [fst snd] in A, B. rewrite A, B. reflexivity.
Defined.


Lemma delete_needs_confirmation_witness :
  delete_command AsciiRuntime.strptime AsciiRuntime.strftime 1001
    ["05.01.2026"] db_abc
  = (db_abc, [ConfirmDelete (mkdatetime (mkdate 2026 1 5) 0)
                "delete_confirm_2026-01-05" "delete_cancel"])
  /\ button_callback AsciiRuntime.strptime 1001 "delete_cancel" db_abc
     = (db_abc, [Cancelled])
  /\ button_callback AsciiRuntime.strptime 1001 "delete_confirm_2026-01-05"
       db_abc
     = (commit db_abc
          (delete_reading_log AsciiRuntime.strptime "2026-01-05" 1001 db_abc),
        [Deleted]).
Proof.
  split; [reflexivity|].
  destruct (proj2 (delete_needs_confirmation AsciiRuntime.strptime
                     AsciiRuntime.strftime 1001 ["05.01.2026"] db_abc)
              (mkdatetime (mkdate 2026 1 5) 0) "delete_confirm_2026-01-05"
              "delete_cancel" eq_refl) as (No & Yes).
  split; [exact No | exact (Yes eq_refl)].
Defined.

(** ** Reminders *)

Lemma remind_each_chat (deliver : nat -> Z -> bool) (us : list ReminderOut.t) :
  forall k, map rm_chat_id (remind_each deliver k us)
            = map ReminderOut.telegram_id us.
Proof.
  induction us as [|u us IH]; intros k; cbn; [reflexivity|].
  f_equal. apply IH.
Qed.

Section ReminderFacts.
Variable matches_HH_MM : string -> bool.

(** After an accepted [/reminder s], the reminder job writes to the
    sender in exactly the minutes whose clock reading is [s], whether or
    not the sends to other users in the same minute fail. *)
Theorem reminder_fires_at_the_set_minute (user : Z) (s : string) (db : DB)
    (u : User.t) (deliver : nat -> Z -> bool) (clk : Clock) :
  matches_HH_MM s = true ->
  user_by_telegram user db = Some u ->
  NoDup (map User.telegram_id (users db)) ->
  In user (map rm_chat_id
             (send_reminders deliver clk
                (fst (reminder_command matches_HH_MM user [s] db))))
  <-> strftime_HM (now clk) = s.
Proof.
  intros M Eu N.
  unfold reminder_command, update_user_fields. rewrite M, Eu.
  cbn [negb commit fst]. unfold send_reminders.
  rewrite remind_each_chat. unfold get_users_need_reminder.
  cbn [users]. rewrite map_map. cbn [ReminderOut.telegram_id].
  pose proof (user_by_telegram_In _ _ _ Eu) as Hu.
  assert (Tu : User.telegram_id u = user).
  { unfold user_by_telegram in Eu. apply find_some in Eu as [_ E].
    apply Z.eqb_eq, E. }
  rewrite in_map_iff. split.
  - intros (v & Tv & Hv). apply filter_In in Hv as [Hv R].
    apply String.eqb_eq in R.
    apply update_user_In in Hv as (x & Hx & ->).
    assert (x = u).
    { apply (NoDup_id_eq User.telegram_id (users db)); auto.
      destruct (User.id x =? User.id u); [|congruence].
      destruct (apply_fields_keeps
                  (UpdateFields.mk None None (Some s) None) x) as (_ & T & _).
      congruence. }
    subst x. rewrite Z.eqb_refl in R. symmetry. exact R.
  - intros <-. exists (set_reminder_time (strftime_HM (now clk)) u).
    split; [exact Tu|]. apply filter_In. split.
    + unfold update_user. apply in_map_iff. exists u.
      rewrite Z.eqb_refl. cbn [apply_fields set_if UpdateFields.timezone
        UpdateFields.reminder_time UpdateFields.monthly_goal
        UpdateFields.daily_goal]. auto.
    + apply String.eqb_refl.
Qed.

End ReminderFacts.

(** ** The activity of the last seven days *)








Lemma reminder_fires_at_the_set_minute_witness :
  AsciiText.matches_HH_MM "12:00" = true
  /\ user_by_telegram 1001 db_abc = Some (reader 1 "A" 120)
  /\ NoDup (map User.telegram_id (users db_abc))
  /\ strftime_HM (now wednesday) = "12:00"
  /\ In 1001 (map rm_chat_id
                (send_reminders reminders_fail wednesday
                   (fst (reminder_command AsciiText.matches_HH_MM 1001
                           ["12:00"] db_abc)))).
Proof.
  assert (M : AsciiText.matches_HH_MM "12:00" = true) by reflexivity.
  assert (Eu : user_by_telegram 1001 db_abc = Some (reader 1 "A" 120))
    by reflexivity.
  assert (N : NoDup (map User.telegram_id (users db_abc)))
    by (apply NoDup_by_nodup; reflexivity).
  assert (T : strftime_HM (now wednesday) = "12:00") by reflexivity.
  split; [exact M | split; [exact Eu | split; [exact N | split; [exact T|]]]].
  exact (proj2 (reminder_fires_at_the_set_minute AsciiText.matches_HH_MM 1001
                  "12:00" db_abc (reader 1 "A" 120) reminders_fail wednesday
                  M Eu N) T).
Defined.

